(** * schnetpack.train.trainer: a shallow embedding of [Trainer]

    The development follows [src/schnetpack/train/trainer.py].  The trainer
    object, the checkpoint directory and a log of the externally visible
    actions form the state that is threaded through every method by a small
    state-and-exception monad.  The model, the loss function, the optimizer
    and the hooks are external collaborators: they are taken as parameters
    and only their interfaces are used.

    Conventions.
    - Python [int] configuration values are [Z]; counters that the trainer
      only ever increments from zero ([epoch], [step], [batch_num],
      [step_num]) are [nat].
    - Python/torch floating point scalars are modelled by exact rationals
      [Qc]; [float("inf")] is a separate constructor of [pyfloat].
    - A file [checkpoint-<e>.pth.tar] of the checkpoint directory is
      represented by its epoch tag [e]; the directory is a finite map from
      epoch tags to the pickled state dictionaries. *)

From Stdlib Require Import ZArith QArith Qcanon Lia.
From stdpp Require Import base tactics option list numbers sorting gmap.

Set Default Proof Using "Type".
Local Open Scope Z_scope.

(** ** Python exceptions *)

Inductive exn : Type :=
| AttributeError
| ZeroDivisionError
| IndexError
| ValueError
| FileNotFoundError
| UserError (tag : nat)   (* an [Exception] raised by model, loss or a hook *)
| BaseExc (tag : nat).    (* a [BaseException] outside [Exception],
                             e.g. KeyboardInterrupt *)

(** [except Exception] catches everything but the last kind. *)
Definition is_Exception (e : exn) : bool :=
  match e with
  | BaseExc _ => false
  | _ => true
  end.

Global Instance exn_eq_dec : EqDecision exn.
Proof. solve_decision. Defined.

(** ** Floats *)

Inductive pyfloat : Type :=
| Finite (q : Qc)
| PlusInf.

Global Instance pyfloat_eq_dec : EqDecision pyfloat.
Proof. solve_decision. Defined.

(** The rational a finite float stands for. *)
Definition float_value (x : pyfloat) : option Q :=
  match x with
  | Finite q => Some (this q)
  | PlusInf => None
  end.

(** [x > y] for a float [x] and a finite [y]. *)
Definition float_gt (x : pyfloat) (y : Qc) : bool :=
  match x with
  | Finite q => bool_decide (y < q)%Qc
  | PlusInf => true
  end.

(** ** Python list primitives *)

(** [l[i]] with Python's negative indices; [None] stands for IndexError. *)
Definition py_getitem {A} (l : list A) (i : Z) : option A :=
  if decide (0 <= i) then l !! Z.to_nat i
  else if decide (- Z.of_nat (length l) <= i)
       then l !! Z.to_nat (Z.of_nat (length l) + i)
       else None.

(** [l[:stop]]. *)
Definition py_slice_to {A} (l : list A) (stop : Z) : list A :=
  if decide (0 <= stop) then take (Z.to_nat stop) l
  else take (Z.to_nat (Z.of_nat (length l) + stop)) l.

(** [range(start, stop, -1)]. *)
Definition py_range_down (start stop : Z) : list Z :=
  (λ k : nat, start - Z.of_nat k) <$> seq 0 (Z.to_nat (start - stop)).

(** [np.argsort]: the indices of [keys] in ascending order of key.  The
    source uses the default (unstable) kind; the checkpoint epochs it sorts
    are pairwise distinct, so any correct sort gives the same answer. *)
Definition key_le (p q : nat * nat) : Prop := (p.1 <= q.1)%nat.

Global Instance key_le_dec : RelDecision key_le.
Proof. intros p q. unfold key_le. apply _. Defined.

(** The keys paired with their positions, in ascending order of key. *)
Definition sorted_pairs (keys : list nat) : list (nat * nat) :=
  merge_sort key_le (zip keys (seq 0 (length keys))).

Definition argsort (keys : list nat) : list nat := (sorted_pairs keys).*2.

(** [np.argmax]: the first index holding the maximum; [None] stands for the
    ValueError on an empty sequence. *)
Fixpoint argmax_from (i : nat) (best : nat) (bestv : Qc) (l : list Qc) : nat :=
  match l with
  | [] => best
  | x :: l' =>
      if bool_decide (bestv < x)%Qc then argmax_from (S i) i x l'
      else argmax_from (S i) best bestv l'
  end.

Definition argmax (l : list Qc) : option nat :=
  match l with
  | [] => None
  | x :: l' => Some (argmax_from 1 0 x l')
  end.

(** [torch.mean(torch.tensor(preds))] for a non-empty list of scalars. *)
Definition mean (preds : list Qc) : Qc :=
  (foldr Qcplus 0 preds / Qc_of_Z (Z.of_nat (length preds)))%Qc.

(** ** The hook protocol *)

(** The fixed set of lifecycle callbacks. *)
Inductive callback : Type :=
| on_train_begin
| on_epoch_begin
| on_batch_begin
| on_batch_end
| on_validation_begin
| on_validation_batch_begin
| on_validation_batch_end
| on_validation_end
| on_epoch_end
| on_train_ends
| on_train_failed.

Global Instance callback_eq_dec : EqDecision callback.
Proof. solve_decision. Defined.

(** Modelled from the spec: the hook classes ([schnetpack.train.hooks]) are
    not among the sources.  Section 4.6 of the specification gives a hook the
    callbacks above, a serializable state of its own, read access to the run
    state of the trainer it is handed and write access to its stop flag.
    [View] is what a hook can read. *)
Record View : Type := mkView {
  v_epoch : nat;
  v_step : nat;
  v_best_loss : pyfloat;
  v_best_losses : list Qc;
  v_stop : bool;
}.

(** The externally visible actions of a run, in the order they happen. *)
Inductive event : Type :=
| EvHook (i : nat) (c : callback)  (* hook number [i] is called with [c] *)
| EvForward                        (* [self._model(batch)] *)
| EvBackward                       (* [loss.backward()] *)
| EvOptimizerStep                  (* [self.optimizer.step()] *)
| EvZeroGrad                       (* [self.optimizer.zero_grad()] *)
| EvSave (e : nat)                 (* [torch.save] of checkpoint-e.pth.tar *)
| EvRemove (e : nat)               (* [os.remove] of checkpoint-e.pth.tar *)
| EvSaveBest (slot : option nat).  (* [torch.save] of best_model<slot> *)

Global Instance event_eq_dec : EqDecision event.
Proof. solve_decision. Defined.

(** ** The state-and-exception monad

    A method call either returns a value or raises; in both cases the state
    it has reached is kept, since attribute assignments made before a
    [raise] stay visible to the handler. *)

Inductive outcome (W A : Type) : Type :=
| Ok (a : A) (w : W)
| Raise (e : exn) (w : W).
Global Arguments Ok {W A} a w.
Global Arguments Raise {W A} e w.

Definition M (W A : Type) : Type := W → outcome W A.

Definition ret {W A} (a : A) : M W A := λ w, Ok a w.
Definition bind {W A B} (m : M W A) (k : A → M W B) : M W B :=
  λ w, match m w with
       | Ok a w' => k a w'
       | Raise e w' => Raise e w'
       end.
Definition raise {W A} (e : exn) : M W A := λ w, Raise e w.

(** Lift a call that returns a value or raises. *)
Definition call {W A} (r : exn + A) : M W A :=
  match r with
  | inl e => raise e
  | inr a => ret a
  end.

(** [try: m  except Exception as e: h e]. *)
Definition try_except {W A} (m : M W A) (h : exn → M W A) : M W A :=
  λ w, match m w with
       | Ok a w' => Ok a w'
       | Raise e w' => if is_Exception e then h e w' else Raise e w'
       end.

(** The state a call ends in, and the exception it ends with, if any. *)
Definition final {W A} (o : outcome W A) : W :=
  match o with
  | Ok _ w => w
  | Raise _ w => w
  end.

Definition raised {W A} (o : outcome W A) : option exn :=
  match o with
  | Ok _ _ => None
  | Raise e _ => Some e
  end.

(** [if c: m]. *)
Definition when {W} (c : bool) (m : M W unit) : M W unit :=
  if c then m else ret tt.

Declare Scope trainer_scope.
Delimit Scope trainer_scope with trainer.
Notation "x <- m ;; k" := (bind m (λ x, k))
  (at level 100, m at next level, right associativity) : trainer_scope.
Notation "m ;; k" := (bind m (λ _, k))
  (at level 100, right associativity) : trainer_scope.

Section Trainer.

(** Opaque data of the collaborators. *)
Context {Batch Result ModelBlob OptBlob Grad HookBlob : Type}.

(** The extra arguments some callbacks receive. *)
Record cb_args : Type := mkArgs {
  arg_batch : option Batch;
  arg_result : option Result;
  arg_loss : option Qc;
}.

Definition no_args : cb_args := mkArgs None None None.

(** Modelled from the spec: a hook object, that is its callbacks and its
    serializable state (see [View] for what is missing from the sources).  A
    callback reads the trainer, may replace the hook's own state and may
    write the trainer's stop flag (the [bool] it returns is the flag
    afterwards); it may also raise. *)
Record HookObj : Type := mkHook {
  hook_cb : callback → cb_args → View → HookBlob → exn + (HookBlob * bool);
  hook_state : HookBlob;
}.

(** Model, loss function and optimizer: torch objects of which the trainer
    uses the operations below. *)
Record Learner : Type := mkLearner {
  (* [model(batch)]; the flag tells whether the model is in training mode *)
  forward : bool → ModelBlob → Batch → exn + Result;
  (* [loss_fn(batch, result)] *)
  loss_fn : Batch → Result → exn + Qc;
  (* [loss.backward()] for the loss of [batch] divided by [n_acc_steps]:
     adds to the stored gradients *)
  backward : ModelBlob → Batch → Z → Grad → Grad;
  (* [optimizer.step()] *)
  optimizer_step : OptBlob → ModelBlob → Grad → OptBlob * ModelBlob;
  (* [optimizer.zero_grad()] *)
  zero_grad : Grad → Grad;
  (* [result['y']] and [result['y'] = pred] *)
  get_y : Result → Qc;
  set_y : Result → Qc → Result;
  (* [list(batch.values())[0].size(0)]; batches are never empty *)
  batch_size : Batch → positive;
}.

(** [self._model], possibly wrapped in [torch.nn.DataParallel]. *)
Inductive model_obj : Type :=
| Plain (sd : ModelBlob)
| DataParallel (module : ModelBlob).

(** The dictionary built by the [state_dict] property. *)
Record StateDict : Type := mkStateDict {
  sd_epoch : nat;
  sd_step : nat;
  sd_best_loss : pyfloat;
  sd_best_losses : list Qc;
  sd_optimizer : OptBlob;
  sd_hooks : list HookBlob;
  sd_model : ModelBlob;
}.

(** Constructor arguments that are never reassigned. *)
Record Config : Type := mkConfig {
  train_loader : list Batch;
  validation_loader : list Batch;
  keep_n_checkpoints : Z;
  checkpoint_interval : Z;
  validation_interval : Z;
  loss_is_normalized : bool;
  n_acc_steps : Z;
  remember : Z;
  ensembleModel : bool;
}.

(** The attributes of a [Trainer] instance.  [epoch_losses] is optional
    because one constructor path never assigns it. *)
Record Trainer : Type := mkTrainer {
  config : Config;
  hooks : list HookObj;
  _model : model_obj;
  _stop : bool;
  optimizer : OptBlob;
  grads : Grad;
  epoch : nat;
  epoch_losses : option (list (list Qc));
  step : nat;
  best_loss : pyfloat;
  best_losses : list Qc;
}.

(** The files under [model_path]: the checkpoint directory ([None] while it
    does not exist) and the best-model files, [best_model] being slot
    [None] and [best_model<k>] slot [Some k]. *)
Record Disk : Type := mkDisk {
  checkpoints : option (gmap nat StateDict);
  best_models : gmap (option nat) model_obj;
}.

Record World : Type := mkWorld {
  tr : Trainer;
  disk : Disk;
  trace : list event;
}.

(** *** Attribute assignment *)

Definition set_hooks (v : list HookObj) (t : Trainer) : Trainer :=
  mkTrainer (config t) v (_model t) (_stop t) (optimizer t) (grads t)
    (epoch t) (epoch_losses t) (step t) (best_loss t) (best_losses t).
Definition set_model (v : model_obj) (t : Trainer) : Trainer :=
  mkTrainer (config t) (hooks t) v (_stop t) (optimizer t) (grads t)
    (epoch t) (epoch_losses t) (step t) (best_loss t) (best_losses t).
Definition set_stop (v : bool) (t : Trainer) : Trainer :=
  mkTrainer (config t) (hooks t) (_model t) v (optimizer t) (grads t)
    (epoch t) (epoch_losses t) (step t) (best_loss t) (best_losses t).
Definition set_optimizer (v : OptBlob) (t : Trainer) : Trainer :=
  mkTrainer (config t) (hooks t) (_model t) (_stop t) v (grads t)
    (epoch t) (epoch_losses t) (step t) (best_loss t) (best_losses t).
Definition set_grads (v : Grad) (t : Trainer) : Trainer :=
  mkTrainer (config t) (hooks t) (_model t) (_stop t) (optimizer t) v
    (epoch t) (epoch_losses t) (step t) (best_loss t) (best_losses t).
Definition set_epoch (v : nat) (t : Trainer) : Trainer :=
  mkTrainer (config t) (hooks t) (_model t) (_stop t) (optimizer t) (grads t)
    v (epoch_losses t) (step t) (best_loss t) (best_losses t).
Definition set_epoch_losses (v : option (list (list Qc))) (t : Trainer)
  : Trainer :=
  mkTrainer (config t) (hooks t) (_model t) (_stop t) (optimizer t) (grads t)
    (epoch t) v (step t) (best_loss t) (best_losses t).
Definition set_step (v : nat) (t : Trainer) : Trainer :=
  mkTrainer (config t) (hooks t) (_model t) (_stop t) (optimizer t) (grads t)
    (epoch t) (epoch_losses t) v (best_loss t) (best_losses t).
Definition set_best_loss (v : pyfloat) (t : Trainer) : Trainer :=
  mkTrainer (config t) (hooks t) (_model t) (_stop t) (optimizer t) (grads t)
    (epoch t) (epoch_losses t) (step t) v (best_losses t).
Definition set_best_losses (v : list Qc) (t : Trainer) : Trainer :=
  mkTrainer (config t) (hooks t) (_model t) (_stop t) (optimizer t) (grads t)
    (epoch t) (epoch_losses t) (step t) (best_loss t) v.

(** *** Primitive actions on the world *)

Definition gets {A} (f : Trainer → A) : M World A := λ w, Ok (f (tr w)) w.
Definition modify (f : Trainer → Trainer) : M World unit :=
  λ w, Ok tt (mkWorld (f (tr w)) (disk w) (trace w)).
Definition get_disk : M World Disk := λ w, Ok (disk w) w.
Definition put_disk (d : Disk) : M World unit :=
  λ w, Ok tt (mkWorld (tr w) d (trace w)).
Definition emit (ev : event) : M World unit :=
  λ w, Ok tt (mkWorld (tr w) (disk w) (trace w ++ [ev])).

Local Open Scope trainer_scope.

(** *** Serializing the run state *)

Definition _check_is_parallel (t : Trainer) : bool :=
  match _model t with
  | DataParallel _ => true
  | Plain _ => false
  end.

(** [model.state_dict()] of the wrapped module or of the model itself. *)
Definition model_state_dict (m : model_obj) : ModelBlob :=
  match m with
  | Plain sd => sd
  | DataParallel sd => sd
  end.

Definition _load_model_state_dict (sd : ModelBlob) (t : Trainer) : Trainer :=
  if _check_is_parallel t then set_model (DataParallel sd) t
  else set_model (Plain sd) t.

(** The getter of the [state_dict] property. *)
Definition state_dict (t : Trainer) : StateDict :=
  mkStateDict (epoch t) (step t) (best_loss t) (best_losses t)
    (optimizer t) (hook_state <$> hooks t) (model_state_dict (_model t)).

(** [h.state_dict = s]. *)
Definition put_hook_state (h : HookObj) (s : HookBlob) : HookObj :=
  mkHook (hook_cb h) s.

(** [for h, s in zip(hs, ss): h.state_dict = s]: hooks beyond the shorter
    list are left alone. *)
Fixpoint assign_states (hs : list HookObj) (ss : list HookBlob)
  : list HookObj :=
  match hs, ss with
  | h :: hs', s :: ss' => put_hook_state h s :: assign_states hs' ss'
  | _, _ => hs
  end.

(** The setter of the [state_dict] property.  Its last statement zips the
    hooks with [self.state_dict["hooks"]], that is with the getter applied
    to the trainer itself, not with the argument. *)
Definition set_state_dict (sd : StateDict) (t : Trainer) : Trainer :=
  let t := set_epoch (sd_epoch sd) t in
  let t := set_step (sd_step sd) t in
  let t := set_best_loss (sd_best_loss sd) t in
  let t := set_best_losses (sd_best_losses sd) t in
  let t := set_optimizer (sd_optimizer sd) t in
  let t := _load_model_state_dict (sd_model sd) t in
  set_hooks (assign_states (hooks t) (sd_hooks (state_dict t))) t.

(** *** The checkpoint directory *)

Definition with_checkpoints (dir : gmap nat StateDict) (d : Disk) : Disk :=
  mkDisk (Some dir) (best_models d).

(** [os.listdir(self.checkpoint_path)], already reduced to epoch tags. *)
Definition os_listdir : M World (list nat) :=
  d <- get_disk ;;
  match checkpoints d with
  | Some dir => ret (map_to_list dir).*1
  | None => raise FileNotFoundError
  end.

(** [torch.save(sd, checkpoint-e.pth.tar)]: creates or overwrites. *)
Definition torch_save (e : nat) (sd : StateDict) : M World unit :=
  d <- get_disk ;;
  match checkpoints d with
  | Some dir => put_disk (with_checkpoints (<[e:=sd]> dir) d) ;; emit (EvSave e)
  | None => raise FileNotFoundError
  end.

(** [torch.load(checkpoint-e.pth.tar)]. *)
Definition torch_load (e : nat) : M World StateDict :=
  d <- get_disk ;;
  match checkpoints d with
  | Some dir =>
      match dir !! e with
      | Some sd => ret sd
      | None => raise FileNotFoundError
      end
  | None => raise FileNotFoundError
  end.

(** [os.remove(checkpoint-e.pth.tar)]. *)
Definition os_remove (e : nat) : M World unit :=
  d <- get_disk ;;
  match checkpoints d with
  | Some dir =>
      match dir !! e with
      | Some _ => put_disk (with_checkpoints (delete e dir) d) ;;
                  emit (EvRemove e)
      | None => raise FileNotFoundError
      end
  | None => raise FileNotFoundError
  end.

(** [for i in idx: os.remove(chpts[i])]. *)
Fixpoint remove_files (chpts : list nat) (idx : list nat) : M World unit :=
  match idx with
  | [] => ret tt
  | i :: idx' =>
      match chpts !! i with
      | Some f => os_remove f ;; remove_files chpts idx'
      | None => raise IndexError
      end
  end.

Definition store_checkpoint : M World unit :=
  e <- gets epoch ;;
  sd <- gets state_dict ;;
  torch_save e sd ;;
  chpts <- os_listdir ;;
  k <- gets (λ t, keep_n_checkpoints (config t)) ;;
  when (bool_decide (k < Z.of_nat (length chpts)))
    (let chpt_epochs := chpts in
     let sidx := argsort chpt_epochs in
     remove_files chpts (py_slice_to sidx (- k))).

(** [max] of a list of epoch tags; ValueError on the empty list. *)
Definition py_max (l : list nat) : M World nat :=
  match l with
  | [] => raise ValueError
  | x :: l' => ret (foldl Nat.max x l')
  end.

Definition restore_checkpoint (epoch : option nat) : M World unit :=
  e <- match epoch with
       | Some e => ret e
       | None => chpts <- os_listdir ;; py_max chpts
       end ;;
  sd <- torch_load e ;;
  modify (set_state_dict sd).

(** *** [Trainer.__init__] *)

(** [os.makedirs(self.checkpoint_path)]. *)
Definition os_makedirs : M World unit :=
  d <- get_disk ;; put_disk (with_checkpoints ∅ d).

(** The attributes assigned before the constructor branches.  The run
    counters are not assigned yet at that point; the values given here are
    overwritten on both paths before anything reads them, except
    [epoch_losses], which only the fresh path assigns. *)
Definition blank_trainer (cfg : Config) (model : model_obj)
    (opt : OptBlob) (g : Grad) (hks : list HookObj) : Trainer :=
  mkTrainer cfg hks model false opt g 0 None 0 PlusInf [].

Definition init_body : M World unit :=
  d <- get_disk ;;
  match checkpoints d with
  | Some _ => restore_checkpoint None
  | None =>
      os_makedirs ;;
      modify (set_epoch 0) ;;
      modify (set_epoch_losses (Some [])) ;;
      modify (set_step 0) ;;
      modify (set_best_loss PlusInf) ;;
      modify (set_best_losses []) ;;
      store_checkpoint
  end.

(** [Trainer(model_path, model, loss_fn, optimizer, ...)] over the files
    [d]; the log starts empty. *)
Definition Trainer_init (cfg : Config) (model : model_obj) (opt : OptBlob)
    (g : Grad) (hks : list HookObj) (d : Disk) : outcome World unit :=
  init_body (mkWorld (blank_trainer cfg model opt g hks) d []).

(** *** [Trainer.calc_pred] *)

(** [[epoch_losses[i][batch_num] for i in idx]]. *)
Fixpoint history_at (epoch_losses : list (list Qc)) (batch_num : nat)
    (idx : list Z) : exn + list Qc :=
  match idx with
  | [] => inr []
  | i :: idx' =>
      match py_getitem epoch_losses i with
      | None => inl IndexError
      | Some row =>
          match py_getitem row (Z.of_nat batch_num) with
          | None => inl IndexError
          | Some p =>
              match history_at epoch_losses batch_num idx' with
              | inl e => inl e
              | inr ps => inr (p :: ps)
              end
          end
      end
  end.

(** The list [preds] that [calc_pred] averages. *)
Definition calc_pred_preds (prediction : Qc) (epoch_losses : list (list Qc))
    (batch_num : nat) (remember : Z) : exn + list Qc :=
  let lene := Z.of_nat (length epoch_losses) in
  let lene2 := if decide (lene < remember) then -1 else lene - remember in
  match history_at epoch_losses batch_num (py_range_down (lene - 1) lene2) with
  | inl e => inl e
  | inr hist => inr (prediction :: hist)
  end.

Definition calc_pred (prediction : Qc) (epoch_losses : list (list Qc))
    (batch_num : nat) (remember : Z) : exn + Qc :=
  match calc_pred_preds prediction epoch_losses batch_num remember with
  | inl e => inl e
  | inr preds => inr (mean preds)
  end.

(** *** Calling the collaborators *)

Variable L : Learner.

Definition view (t : Trainer) : View :=
  mkView (epoch t) (step t) (best_loss t) (best_losses t) (_stop t).

(** [h.<c>(self, ...)] for the hook at position [i]. *)
Definition call_hook (c : callback) (a : cb_args) (i : nat) : M World unit :=
  hs <- gets hooks ;;
  match hs !! i with
  | None => ret tt
  | Some h =>
      emit (EvHook i c) ;;
      v <- gets view ;;
      r <- call (hook_cb h c a v (hook_state h)) ;;
      modify (set_hooks (<[i:=put_hook_state h r.1]> hs)) ;;
      modify (set_stop r.2)
  end.

Fixpoint dispatch_from (c : callback) (a : cb_args) (i n : nat)
  : M World unit :=
  match n with
  | O => ret tt
  | S n' => call_hook c a i ;; dispatch_from c a (S i) n'
  end.

(** [for h in self.hooks: h.<c>(self, ...)]. *)
Definition dispatch (c : callback) (a : cb_args) : M World unit :=
  hs <- gets hooks ;; dispatch_from c a 0 (length hs).

(** [self._model(batch)]. *)
Definition model_call (training : bool) (b : Batch) : M World Result :=
  m <- gets _model ;;
  emit EvForward ;;
  call (forward L training (model_state_dict m) b).

(** [loss.backward()]. *)
Definition loss_backward (b : Batch) (n_acc : Z) : M World unit :=
  emit EvBackward ;;
  modify (λ t, set_grads
    (backward L (model_state_dict (_model t)) b n_acc (grads t)) t).

(** [self.optimizer.step()]: new optimizer state and new parameters. *)
Definition do_optimizer_step : M World unit :=
  emit EvOptimizerStep ;;
  modify (λ t,
    let r := optimizer_step L (optimizer t) (model_state_dict (_model t))
               (grads t) in
    _load_model_state_dict r.2 (set_optimizer r.1 t)).

(** [self.optimizer.zero_grad()]. *)
Definition do_zero_grad : M World unit :=
  emit EvZeroGrad ;;
  modify (λ t, set_grads (zero_grad L (grads t)) t).

(** [torch.save(self._model, self.best_model + suffix)]. *)
Definition save_best (slot : option nat) : M World unit :=
  m <- gets _model ;;
  d <- get_disk ;;
  put_disk (mkDisk (checkpoints d) (<[slot:=m]> (best_models d))) ;;
  emit (EvSaveBest slot).

(** [a % b == 0] on Python integers. *)
Definition py_mod_is_zero (a b : Z) : M World bool :=
  if decide (b = 0) then raise ZeroDivisionError
  else ret (bool_decide (a `mod` b = 0)).

(** *** The batch loop of one training epoch (lines 215 to 245) *)

Fixpoint batch_loop (len : nat) (batches : list Batch)
    (batch_num step_num : nat) (loss_sum : Qc) : M World unit :=
  match batches with
  | [] => ret tt
  | train_batch :: rest =>
      let batch_num := S batch_num in
      let step_num := S step_num in
      dispatch on_batch_begin (mkArgs (Some train_batch) None None) ;;
      result <- model_call true train_batch ;;
      l <- call (loss_fn L train_batch result) ;;
      n_acc <- gets (λ t, n_acc_steps (config t)) ;;
      let loss := (l / Qc_of_Z n_acc)%Qc in
      loss_backward train_batch n_acc ;;
      let loss_sum := (loss_sum + loss)%Qc in
      if bool_decide (Z.of_nat step_num = n_acc)
         || bool_decide (batch_num = len)
      then
        do_optimizer_step ;;
        modify (λ t, set_step (S (step t)) t) ;;
        dispatch on_batch_end
          (mkArgs (Some train_batch) (Some result) (Some loss_sum)) ;;
        stop <- gets _stop ;;
        if stop then ret tt
        else do_zero_grad ;; batch_loop len rest batch_num 0 0%Qc
      else batch_loop len rest batch_num step_num loss_sum
  end.

(** *** Validation (lines 252 to 324) *)

(** Lines 278 to 281: the prediction that replaces [val_result['y']]. *)
Definition ensemble_pred (prediction : Qc) (batch_num : nat) : M World Qc :=
  e <- gets epoch ;;
  if bool_decide (e = 1%nat) then ret prediction
  else
    el <- gets epoch_losses ;;
    match el with
    | None => raise AttributeError
    | Some el =>
        r <- gets (λ t, remember (config t)) ;;
        call (calc_pred prediction el batch_num r)
    end.

(** The loop over the validation batches.  [batch_num] and [batch_losses]
    are only touched in ensemble mode. *)
Fixpoint validation_loop (batches : list Batch) (val_loss : Qc)
    (n_val : nat) (batch_num : nat) (batch_losses : list Qc)
  : M World (Qc * nat * list Qc) :=
  match batches with
  | [] => ret (val_loss, n_val, batch_losses)
  | val_batch :: rest =>
      let vsize := Pos.to_nat (batch_size L val_batch) in
      let n_val := (n_val + vsize)%nat in
      dispatch on_validation_batch_begin no_args ;;
      val_result <- model_call false val_batch ;;
      ens <- gets (λ t, ensembleModel (config t)) ;;
      st <- (if ens then
               let prediction := get_y L val_result in
               pred <- ensemble_pred prediction batch_num ;;
               ret (set_y L val_result pred, S batch_num,
                    batch_losses ++ [prediction])
             else ret (val_result, batch_num, batch_losses)) ;;
      let '(val_result, batch_num, batch_losses) := st in
      val_batch_loss <- call (loss_fn L val_batch val_result) ;;
      normalized <- gets (λ t, loss_is_normalized (config t)) ;;
      let val_loss :=
        if normalized
        then (val_loss + val_batch_loss * Qc_of_Z (Z.of_nat vsize))%Qc
        else (val_loss + val_batch_loss)%Qc in
      dispatch on_validation_batch_end
        (mkArgs (Some val_batch) (Some val_result) None) ;;
      validation_loop rest val_loss n_val batch_num batch_losses
  end.

(** Lines 305 to 314: the ensemble keeps up to [remember] best losses. *)
Definition select_ensemble (val_loss : Qc) : M World unit :=
  bl <- gets best_losses ;;
  r <- gets (λ t, remember (config t)) ;;
  if bool_decide (Z.of_nat (length bl) < r) then
    modify (set_best_losses (bl ++ [val_loss])) ;;
    bl' <- gets best_losses ;;
    save_best (Some (length bl' - 1)%nat)
  else
    match argmax bl with
    | None => raise ValueError
    | Some bad_loss =>
        match bl !! bad_loss with
        | None => raise IndexError
        | Some worst =>
            if bool_decide (val_loss < worst)%Qc then
              modify (set_best_losses (<[bad_loss:=val_loss]> bl)) ;;
              save_best (Some bad_loss)
            else ret tt
        end
    end.

(** Lines 316 to 318. *)
Definition select_single (val_loss : Qc) : M World unit :=
  b <- gets best_loss ;;
  if float_gt b val_loss then
    modify (set_best_loss (Finite val_loss)) ;;
    save_best None
  else ret tt.

(** Line 324: [self.epoch_losses.append(batch_losses)]. *)
Definition append_epoch_losses (batch_losses : list Qc) : M World unit :=
  el <- gets epoch_losses ;;
  match el with
  | None => raise AttributeError
  | Some el => modify (set_epoch_losses (Some (el ++ [batch_losses])))
  end.

Definition validation : M World unit :=
  dispatch on_validation_begin no_args ;;
  vl <- gets (λ t, validation_loader (config t)) ;;
  r <- validation_loop vl 0%Qc 0%nat 0%nat [] ;;
  let '(val_loss, n_val, batch_losses) := r in
  normalized <- gets (λ t, loss_is_normalized (config t)) ;;
  val_loss <- (if normalized then
                 if bool_decide (n_val = 0%nat) then raise ZeroDivisionError
                 else ret (val_loss / Qc_of_Z (Z.of_nat n_val))%Qc
               else ret val_loss) ;;
  ens <- gets (λ t, ensembleModel (config t)) ;;
  (if ens then select_ensemble val_loss else select_single val_loss) ;;
  dispatch on_validation_end (mkArgs None None (Some val_loss)) ;;
  when ens (append_epoch_losses batch_losses).

(** *** [Trainer.train] *)

(** The part of an epoch after the stop check at its beginning
    (lines 207 to 327).  [self._model.train()] and [self._model.eval()] do
    not appear: the mode is passed to each model call instead. *)
Definition epoch_body : M World unit :=
  do_zero_grad ;;
  tl <- gets (λ t, train_loader (config t)) ;;
  batch_loop (length tl) tl 0 0 0%Qc ;;
  e <- gets epoch ;;
  ci <- gets (λ t, checkpoint_interval (config t)) ;;
  c <- py_mod_is_zero (Z.of_nat e) ci ;;
  when c store_checkpoint ;;
  e <- gets epoch ;;
  vi <- gets (λ t, validation_interval (config t)) ;;
  v <- py_mod_is_zero (Z.of_nat e) vi ;;
  stop <- gets _stop ;;
  when (v || stop) validation ;;
  dispatch on_epoch_end no_args.

(** [for _ in range(n_epochs): ...] with its two [break]s. *)
Fixpoint epoch_loop (n : nat) : M World unit :=
  match n with
  | O => ret tt
  | S n' =>
      modify (λ t, set_epoch (S (epoch t)) t) ;;
      dispatch on_epoch_begin no_args ;;
      stop <- gets _stop ;;
      if stop then modify (λ t, set_epoch (epoch t - 1)%nat t)
      else
        epoch_body ;;
        stop <- gets _stop ;;
        if stop then ret tt else epoch_loop n'
  end.

(** The body of the [try] statement. *)
Definition train_body (n_epochs : Z) : M World unit :=
  epoch_loop (Z.to_nat n_epochs) ;;
  dispatch on_train_ends no_args ;;
  store_checkpoint.

(** The [except Exception as e] clause. *)
Definition train_failed (e : exn) : M World unit :=
  dispatch on_train_failed no_args ;;
  raise e.

(** [train(device, n_epochs)].  Moving the model and the optimizer to the
    device and the progress [print]s are left out. *)
Definition train (n_epochs : Z) : M World unit :=
  modify (set_stop false) ;;
  dispatch on_train_begin no_args ;;
  try_except (train_body n_epochs) train_failed.

End Trainer.

Arguments cb_args : clear implicits.
Arguments HookObj : clear implicits.
Arguments Learner : clear implicits.
Arguments model_obj : clear implicits.
Arguments StateDict : clear implicits.
Arguments Config : clear implicits.
Arguments Trainer : clear implicits.
Arguments Disk : clear implicits.
Arguments World : clear implicits.

(** ** Sequences of checkpoint writes *)

Section Stores.
Context {Batch Result ModelBlob OptBlob Grad HookBlob : Type}.
Local Abbreviation World :=
  (World Batch Result ModelBlob OptBlob Grad HookBlob).
Local Open Scope trainer_scope.



(** The epoch tags of the checkpoint files on disk. *)
Definition files (w : World) : gset nat :=
  match checkpoints (disk w) with
  | Some dir => dom dir
  | None => ∅
  end.

(** How many times an action occurs in a log. *)
Definition count_event (P : event → bool) (l : list event) : nat :=
  length (filter (λ ev, P ev = true) l).

Definition is_save (ev : event) : bool :=
  match ev with EvSave _ => true | _ => false end.
Definition is_remove (ev : event) : bool :=
  match ev with EvRemove _ => true | _ => false end.
Definition is_optimizer_step (ev : event) : bool :=
  match ev with EvOptimizerStep => true | _ => false end.
End Stores.


(** [R] consists of the [K] highest elements of [S] (of all of [S] when it
    has at most [K] elements). *)
Definition highest_of (K : nat) (S R : gset nat) : Prop :=
  R ⊆ S ∧ size R = Nat.min (size S) K ∧
  set_Forall (λ x, set_Forall (λ y, (y < x)%nat) (S ∖ R)) R.

Global Instance highest_of_dec K S R : Decision (highest_of K S R).
Proof. unfold highest_of. apply _. Defined.


(** The log of one pass over [n] hooks, from hook [i] on, for callback [c]. *)
Definition hook_events (c : callback) (i n : nat) : list event :=
  (λ j, EvHook j c) <$> seq i n.

(** With [B] batches and an accumulation window of [A] batches, batch number
    [i] (counted from 1) closes a window when [A] divides [i] or [i] is the
    last batch. *)
Definition step_due (A B i : nat) : bool :=
  bool_decide (i `mod` A = 0)%nat || bool_decide (i = B).

(** What the [i]-th batch of an epoch logs when no hook interferes. *)
Definition batch_events (nh A B i : nat) : list event :=
  hook_events on_batch_begin 0 nh ++ [EvForward; EvBackward] ++
  (if step_due A B i
   then [EvOptimizerStep] ++ hook_events on_batch_end 0 nh ++ [EvZeroGrad]
   else []).

(** The number of accumulation windows, full or partial: [ceil(B / A)]. *)
Definition windows (A B : nat) : nat := ((B + A - 1) / A)%nat.


(** [m] started in [w] returns a value and a state that satisfy [Q]. *)
Definition returns {W A} (m : M W A) (w : W) (Q : A → W → Prop) : Prop :=
  ∃ a w', m w = Ok a w' ∧ Q a w'.

(** ** Sequences of validation losses *)

Section Selections.
Context {Batch Result ModelBlob OptBlob Grad HookBlob : Type}.
Local Abbreviation World :=
  (World Batch Result ModelBlob OptBlob Grad HookBlob).
Local Open Scope trainer_scope.

(** The single-best policy applied to the validation losses [vs] in turn. *)
Fixpoint select_single_all (vs : list Qc) : M World unit :=
  match vs with
  | [] => ret tt
  | v :: vs' => select_single v ;; select_single_all vs'
  end.
End Selections.

(** ** Vocabulary for statements about hooks *)

Section HookVocabulary.
Context {Batch Result ModelBlob OptBlob Grad HookBlob : Type}.
Local Abbreviation World :=
  (World Batch Result ModelBlob OptBlob Grad HookBlob).

(** All a pass over the hooks can change: the hook states, the stop flag
    and the log. *)
Definition hook_update (hs : list (HookObj Batch Result HookBlob))
    (stop : bool) (evs : list event) (w : World) : World :=
  mkWorld (set_stop stop (set_hooks hs (tr w))) (disk w) (trace w ++ evs).

(** A callback is quiet when it always returns and leaves the stop flag as
    it found it. *)
Definition quiet
    (cb : callback → cb_args Batch Result → View → HookBlob →
          exn + (HookBlob * bool)) : Prop :=
  ∀ c a v s, ∃ s', cb c a v s = inr (s', v_stop v).

(** A learner is total when neither the model nor the loss function ever
    raises. *)
Definition total_learner (L : Learner Batch Result ModelBlob OptBlob Grad)
  : Prop :=
  (∀ training m b, ∃ r, forward L training m b = inr r) ∧
  (∀ b r, ∃ l, loss_fn L b r = inr l).

(** The raw predictions of a model with parameters [m] on the validation
    batches [vl]. *)
Definition raw_predictions (L : Learner Batch Result ModelBlob OptBlob Grad)
    (m : ModelBlob) (vl : list Batch) : list Qc :=
  omap (λ b, match forward L false m b with
             | inr r => Some (get_y L r)
             | inl _ => None
             end) vl.

(** What the batch loop preserves, and how it moves the log and the step
    counter. *)
Definition advanced (w : World) (evs : list event) (k : nat) (w' : World)
  : Prop :=
  n_acc_steps (config (tr w')) = n_acc_steps (config (tr w)) ∧
  hook_cb <$> hooks (tr w') = hook_cb <$> hooks (tr w) ∧
  _stop (tr w') = _stop (tr w) ∧
  trace w' = trace w ++ evs ∧
  step (tr w') = (step (tr w) + k)%nat.

(** What a validation pass leaves alone: the configuration, the model, the
    epoch counter and the prediction history. *)
Definition kept (w w' : World) : Prop :=
  config (tr w') = config (tr w) ∧
  _model (tr w') = _model (tr w) ∧
  epoch (tr w') = epoch (tr w) ∧
  epoch_losses (tr w') = epoch_losses (tr w).

(** What a run without interference preserves while its epoch counter
    grows by [de] and its step counter by [ds]: the configuration, the
    callbacks of the hooks, the stop flag and the existence of the
    checkpoint directory. *)
Definition moved (de ds : nat) (w w' : World) : Prop :=
  config (tr w') = config (tr w) ∧
  hook_cb <$> hooks (tr w') = hook_cb <$> hooks (tr w) ∧
  _stop (tr w') = _stop (tr w) ∧
  epoch (tr w') = (epoch (tr w) + de)%nat ∧
  step (tr w') = (step (tr w) + ds)%nat ∧
  (is_Some (checkpoints (disk w)) → is_Some (checkpoints (disk w'))).



End HookVocabulary.

(** Simplify reads of attributes that have just been assigned. *)
Ltac wsimpl :=
  cbn [tr disk trace hook_update set_stop set_hooks set_optimizer set_grads
       set_step set_model set_epoch set_epoch_losses set_best_loss
       set_best_losses config hooks _model _stop optimizer grads epoch
       epoch_losses step best_loss best_losses].
Tactic Notation "wsimpl" "in" hyp(H) :=
  cbn [tr disk trace hook_update set_stop set_hooks set_optimizer set_grads
       set_step set_model set_epoch set_epoch_losses set_best_loss
       set_best_losses config hooks _model _stop optimizer grads epoch
       epoch_losses step best_loss best_losses] in H.


(** ** A small concrete instance

    Batches, parameters, optimizer state, gradients and hook states are
    natural numbers.  The model predicts the sum of its parameter and the
    batch, the loss is the prediction, a backward pass adds one to the
    gradient and an optimizer step adds the gradient to the parameter. *)

Module Toy.

Definition TWorld : Type := World nat Qc nat nat nat nat.

Definition learner : Learner nat Qc nat nat nat :=
  mkLearner
    (λ _ m b, inr (Qc_of_Z (Z.of_nat (m + b))))
    (λ _ r, inr r)
    (λ _ _ _ g, S g)
    (λ o m g, (S o, (m + g)%nat))
    (λ _, 0%nat)
    (λ r, r)
    (λ _ q, q)
    (λ _, 1%positive).

(** A hook that counts its calls and leaves the stop flag alone. *)
Definition counting_hook (n : nat) : HookObj nat Qc nat :=
  mkHook (λ _ _ v s, inr (S s, v_stop v)) n.

(** A hook that requests a stop in the callback [c]. *)
Definition stopping_hook (c : callback) : HookObj nat Qc nat :=
  mkHook (λ c' _ v s,
            inr (s, if decide (c' = c) then true else v_stop v)) 0%nat.

(** A hook that raises [UserError tag] in the callback [c]. *)
Definition raising_hook (c : callback) (tag : nat) : HookObj nat Qc nat :=
  mkHook (λ c' _ v s,
            if decide (c' = c) then inl (UserError tag)
            else inr (s, v_stop v)) 0%nat.

Definition config (ensemble : bool) (keep rem : Z) : Config nat :=
  mkConfig [0; 1; 2]%nat [0]%nat keep 1 1 true 2 rem ensemble.

Definition no_files : Disk nat nat nat := mkDisk None ∅.
Definition empty_dir : Disk nat nat nat := mkDisk (Some ∅) ∅.

(** Run [m] after [o] if [o] returned. *)
Definition and_then {A} (o : outcome TWorld unit) (m : M TWorld A)
  : outcome TWorld A :=
  match o with
  | Ok _ w => m w
  | Raise e w => Raise e w
  end.

(** A trainer without hooks over an empty checkpoint directory. *)
Definition start (ensemble : bool) (keep rem : Z) : TWorld :=
  mkWorld (blank_trainer (config ensemble keep rem) (Plain 0%nat) 0%nat 0%nat [])
    empty_dir [].


(** A trainer in its fifth epoch whose second hook stops the run in
    [on_epoch_begin], and the state after that pass. *)
Definition C9_start : TWorld :=
  mkWorld (mkTrainer (config false 3 2)
             [counting_hook 0; stopping_hook on_epoch_begin]
             (Plain 7%nat) false 0%nat 0%nat 4%nat (Some []) 8%nat
             PlusInf [])
          empty_dir [].
Definition C9_w2 : TWorld :=
  final (dispatch on_epoch_begin no_args
           (mkWorld (set_epoch 5 (tr C9_start)) (disk C9_start)
              (trace C9_start))).

(** A run whose second hook raises [UserError 1] in [on_batch_begin]: the
    start, the state after the [on_train_begin] pass and the state in which
    the body of the [try] statement raises. *)
Definition C8_start : TWorld :=
  mkWorld (set_epoch_losses (Some [])
             (blank_trainer (config false 3 2) (Plain 0%nat) 0%nat 0%nat
                [counting_hook 0; raising_hook on_batch_begin 1]))
    empty_dir [].
Definition C8_w0 : TWorld :=
  final (dispatch on_train_begin no_args
           (mkWorld (set_stop false (tr C8_start)) (disk C8_start)
              (trace C8_start))).
Definition C8_w1 : TWorld := final (train_body learner 2 C8_w0).

(** The same run with a first hook that raises [UserError 2] in
    [on_train_failed]. *)
Definition C8_masked : TWorld :=
  mkWorld (set_epoch_losses (Some [])
             (blank_trainer (config false 3 2) (Plain 0%nat) 0%nat 0%nat
                [raising_hook on_train_failed 2;
                 raising_hook on_batch_begin 1]))
    empty_dir [].

(** A trainer with one quiet hook, three training batches and an
    accumulation window of two. *)
Definition C4_start : TWorld :=
  mkWorld (set_epoch_losses (Some [])
             (blank_trainer (config false 3 2) (Plain 0%nat) 0%nat 0%nat
                [counting_hook 0]))
    empty_dir [].

(** An ensemble trainer with [remember = 1] in its third epoch, with two
    recorded validation passes, and a fresh one. *)
Definition C6_start : TWorld :=
  mkWorld (mkTrainer (config true 3 1) [counting_hook 0] (Plain 4%nat) false
             2%nat 0%nat 3%nat (Some [[Qc_of_Z 2]; [Qc_of_Z 4]]) 4%nat
             PlusInf [Qc_of_Z 2])
    empty_dir [].
Definition C6_fresh : TWorld :=
  mkWorld (set_epoch_losses (Some [])
             (blank_trainer (config true 3 1) (Plain 0%nat) 0%nat 0%nat []))
    empty_dir [].

(** Resuming in ensemble mode.  One process builds a trainer on an empty
    model directory and trains two epochs.  Another trains one epoch and
    exits; a third then builds a trainer with the same arguments over the
    files the second left and trains one more epoch. *)
Definition C2_init : outcome TWorld unit :=
  Trainer_init (config true 3 2) (Plain 0%nat) 0%nat 0%nat [counting_hook 0]
    no_files.
Definition C2_uninterrupted : outcome TWorld unit :=
  and_then C2_init (train learner 2).
Definition C2_first : outcome TWorld unit :=
  and_then C2_init (train learner 1).
Definition C2_reinit : outcome TWorld unit :=
  Trainer_init (config true 3 2) (Plain 0%nat) 0%nat 0%nat [counting_hook 0]
    (disk (final C2_first)).
Definition C2_resumed : outcome TWorld unit :=
  and_then C2_reinit (train learner 1).

(** A hook that raises KeyboardInterrupt in the callback [c]: it stands for
    the process being interrupted at that point. *)
Definition interrupt_hook (c : callback) : HookObj nat Qc nat :=
  mkHook (λ c' _ v s,
            if decide (c' = c) then inl (BaseExc 0)
            else inr (s, v_stop v)) 0%nat.

(** Resuming in single-best mode.  A run of two epochs is interrupted in
    its first epoch right after the periodic checkpoint write (when the
    validation pass is about to begin); a new trainer over the files it
    left trains the remaining epoch; a third run is not interrupted. *)
Definition single_interrupted : outcome TWorld unit :=
  and_then (Trainer_init (config false 3 2) (Plain 0%nat) 0%nat 0%nat
              [interrupt_hook on_validation_begin] no_files)
    (train learner 2).
Definition single_resumed : outcome TWorld unit :=
  and_then (Trainer_init (config false 3 2) (Plain 0%nat) 0%nat 0%nat []
              (disk (final single_interrupted)))
    (train learner 1).
Definition single_uninterrupted : outcome TWorld unit :=
  and_then (Trainer_init (config false 3 2) (Plain 0%nat) 0%nat 0%nat []
              no_files)
    (train learner 2).

(** A checkpoint directory with the files of epochs 2 and 5, and a trainer
    over it. *)
Definition two_checkpoints : gmap nat (StateDict nat nat nat) :=
  <[5%nat:=mkStateDict 5 10 PlusInf [] 7%nat [3%nat] 11%nat]>
    (<[2%nat:=mkStateDict 2 4 PlusInf [] 3%nat [1%nat] 5%nat]> ∅).
Definition X1_start : TWorld :=
  mkWorld (blank_trainer (config false 3 2) (Plain 0%nat) 0%nat 0%nat
             [counting_hook 0])
    (mkDisk (Some two_checkpoints) ∅) [].


(** A trainer at epoch 6 over the same directory that is to keep no
    checkpoint. *)
Definition X7_start : TWorld :=
  mkWorld (mkTrainer (config false 0 2) [counting_hook 9] (Plain 8%nat) false
             4%nat 0%nat 6%nat (Some []) 12%nat PlusInf [])
    (mkDisk (Some two_checkpoints) ∅) [].

(** A learner whose batches are their own sizes, with loss 1 on the batch
    of size 4 and loss 2 on every other batch; and a trainer in single-best
    mode that validates on a batch of size 4 and one of size 6. *)
Definition sized_learner : Learner nat Qc nat nat nat :=
  mkLearner
    (λ _ _ b, inr (if decide (b = 4%nat) then 1%Qc else 2%Qc))
    (λ _ r, inr r)
    (λ _ _ _ g, S g)
    (λ o m g, (S o, (m + g)%nat))
    (λ _, 0%nat)
    (λ r, r)
    (λ _ q, q)
    (λ b, Pos.of_nat b).
Definition sized_start (normalized : bool) : TWorld :=
  mkWorld (mkTrainer (mkConfig [4; 6]%nat [4; 6]%nat 3 1 1 normalized 1 2 false)
             [counting_hook 0] (Plain 0%nat) false 0%nat 0%nat 1%nat
             (Some []) 2%nat PlusInf [])
    empty_dir [].

(** A trainer whose validation loader is empty. *)
Definition X11_start : TWorld :=
  mkWorld (mkTrainer (mkConfig [0]%nat [] 3 1 1 true 1 2 false)
             [counting_hook 0] (Plain 0%nat) false 0%nat 0%nat 1%nat
             (Some []) 1%nat PlusInf [])
    empty_dir [].

(** A trainer with one counting hook that accumulates over two of its
    three training batches, with the given checkpoint interval. *)
Definition counted_start (checkpoint_interval : Z) : TWorld :=
  mkWorld (mkTrainer
             (mkConfig [0; 1; 2]%nat [4; 6]%nat 2 checkpoint_interval 2 true
                2 2 false)
             [counting_hook 0] (Plain 0%nat) false 0%nat 0%nat 0%nat
             (Some []) 0%nat PlusInf [])
    empty_dir [].

End Toy.
(** * Properties *)

(** ** Checkpoint round trip *)

Section RoundTrip.
Context {Batch Result ModelBlob OptBlob Grad HookBlob : Type}.
Local Abbreviation Trainer :=
  (Trainer Batch Result ModelBlob OptBlob Grad HookBlob).
Local Abbreviation StateDict := (StateDict ModelBlob OptBlob HookBlob).
Implicit Types (t : Trainer) (sd : StateDict).

Lemma assign_states_own (hs : list (HookObj Batch Result HookBlob)) :
  assign_states hs (hook_state <$> hs) = hs.
Proof.
  induction hs as [|[cb s] hs IH]; [done|].
  rewrite fmap_cons. simpl. f_equal. exact IH.
Qed.

(** The hooks come out of the setter exactly as they went in: the states
    stored in the argument are never read. *)
Lemma set_state_dict_keeps_hooks sd t :
  hooks (set_state_dict sd t) = hooks t.
Proof.
  unfold set_state_dict, _load_model_state_dict, _check_is_parallel.
  destruct t as [cfg hs m stop opt g e el st bl bls]; simpl.
  destruct m; simpl; apply assign_states_own.
Qed.

(** Every other field of the dictionary does reach the trainer. *)
Lemma set_state_dict_fields sd t :
  let t' := set_state_dict sd t in
  epoch t' = sd_epoch sd ∧ step t' = sd_step sd ∧
  best_loss t' = sd_best_loss sd ∧ best_losses t' = sd_best_losses sd ∧
  optimizer t' = sd_optimizer sd ∧
  model_state_dict (_model t') = sd_model sd.
Proof.
  unfold set_state_dict, _load_model_state_dict, _check_is_parallel.
  destruct t as [cfg hs m stop opt g e el st bl bls]; simpl.
  destruct m; simpl; done.
Qed.

End RoundTrip.

(** C1, at a concrete input.  A trainer at epoch 3 whose only hook holds the
    state 7 stores a checkpoint into an empty directory; the file does
    contain the hook state 7.  A second trainer over the same directory,
    whose hook starts in state 0, restores that checkpoint: epoch, step,
    best loss, best losses, optimizer and model come back, but the hook is
    still in state 0. *)
Theorem C1_restore_drops_hook_states :
  let saver : Toy.TWorld :=
    mkWorld (mkTrainer (Toy.config false 3 2) [Toy.counting_hook 7]
               (Plain 5%nat) false 4%nat 0%nat 3%nat (Some []) 9%nat
               PlusInf [])
            Toy.empty_dir [] in
  let fresh := blank_trainer (Toy.config false 3 2) (Plain 0%nat) 0%nat 0%nat
                 [Toy.counting_hook 0] in
  ∃ w1 w2,
    store_checkpoint saver = Ok tt w1 ∧
    (sd_hooks <$> (checkpoints (disk w1) ≫= (.!! 3%nat))) = Some [7%nat] ∧
    restore_checkpoint None (mkWorld fresh (disk w1) []) = Ok tt w2 ∧
    epoch (tr w2) = 3%nat ∧ step (tr w2) = 9%nat ∧
    best_loss (tr w2) = PlusInf ∧ best_losses (tr w2) = [] ∧
    optimizer (tr w2) = 4%nat ∧ _model (tr w2) = Plain 5%nat ∧
    hook_state <$> hooks (tr w2) = [0%nat] ∧
    hook_state <$> hooks (tr w2) ≠ sd_hooks (state_dict (tr saver)).
Proof.
  eexists _, _. split; [vm_compute; reflexivity|].
  split; [vm_compute; reflexivity|].
  split; [vm_compute; reflexivity|].
  vm_compute. repeat split; try reflexivity. discriminate.
Qed.
(** ** Checkpoint retention *)

(** *** Sorting the epoch tags *)

Global Instance key_le_total : Total key_le.
Proof. intros p q. unfold key_le. lia. Qed.

Global Instance key_le_trans : Transitive key_le.
Proof. intros p q r. unfold key_le. lia. Qed.

Lemma argsort_pairs keys : argsort keys = (sorted_pairs keys).*2.
Proof. reflexivity. Qed.

Lemma sorted_pairs_lookup keys :
  Forall (λ p, keys !! p.2 = Some p.1) (sorted_pairs keys).
Proof.
  apply Forall_forall. intros [k i] Hin.
  unfold sorted_pairs in Hin. rewrite merge_sort_Permutation in Hin.
  apply elem_of_lookup_zip_with in Hin as (j & k' & i' & Heq & Hk & Hi).
  injection Heq as -> ->.
  apply lookup_seq in Hi as [-> _]. exact Hk.
Qed.

Lemma sorted_pairs_keys keys : (sorted_pairs keys).*1 ≡ₚ keys.
Proof.
  unfold sorted_pairs. rewrite merge_sort_Permutation.
  rewrite fst_zip; [done|]. by rewrite length_seq.
Qed.

Lemma sorted_pairs_length keys : length (sorted_pairs keys) = length keys.
Proof.
  rewrite <- (length_fmap fst). by rewrite sorted_pairs_keys.
Qed.


#[local] Set Warnings "-clear-no-such-hyp".

Section Retention.
Context {Batch Result ModelBlob OptBlob Grad HookBlob : Type}.
Local Abbreviation World :=
  (World Batch Result ModelBlob OptBlob Grad HookBlob).
Local Abbreviation StateDict := (StateDict ModelBlob OptBlob HookBlob).
Implicit Types (w : World) (dir : gmap nat StateDict).

(** Removing the files named by a run of sorted pairs deletes exactly their
    keys, in that order, and touches nothing else. *)
Lemma remove_files_spec chpts (Q : list (nat * nat)) w dir :
  Forall (λ p, chpts !! p.2 = Some p.1) Q →
  NoDup Q.*1 →
  (∀ k, k ∈ Q.*1 → k ∈ dom dir) →
  checkpoints (disk w) = Some dir →
  ∃ dir',
    remove_files chpts Q.*2 w
    = Ok tt (mkWorld (tr w) (with_checkpoints dir' (disk w))
               (trace w ++ (EvRemove <$> Q.*1))) ∧
    dom dir' = dom dir ∖ list_to_set Q.*1 ∧
    dir' ⊆ dir.
Proof.
  revert w dir. induction Q as [|[k i] Q IH]; intros w dir HQ Hnd Hdom Hdir.
  - exists dir. simpl. unfold ret. rewrite app_nil_r.
    split_and!; [|set_solver..].
    destruct w as [t [c b] l]; simpl in *. by subst.
  - apply Forall_cons in HQ as [Hk HQ]. simpl in Hk.
    rewrite fmap_cons in Hnd. apply NoDup_cons in Hnd as [Hnk Hnd].
    assert (is_Some (dir !! k)) as [sd Hsd].
    { apply elem_of_dom, Hdom. rewrite fmap_cons. simpl. left. }
    set (w1 := mkWorld (tr w) (with_checkpoints (delete k dir) (disk w))
                 (trace w ++ [EvRemove k])).
    destruct (IH w1 (delete k dir)) as (dir' & Hrun & Hd & Hsub); [done..| |done|].
    { intros k' Hk'. rewrite dom_delete_L.
      apply elem_of_difference. split.
      - apply Hdom. rewrite fmap_cons. by right.
      - intros ->%elem_of_singleton. done. }
    exists dir'. split_and!.
    + rewrite !fmap_cons. simpl.
      rewrite Hk. unfold bind at 1. unfold os_remove, bind, get_disk.
      rewrite Hdir, Hsd. unfold put_disk, emit. cbn [tr disk trace].
      fold w1. rewrite Hrun. simpl. by rewrite <- app_assoc.
    + rewrite Hd, dom_delete_L, fmap_cons. simpl. set_solver.
    + etrans; [exact Hsub|]. apply delete_subseteq.
Qed.



Lemma listdir_keys dir :
  NoDup (map_to_list dir).*1 ∧
  list_to_set (map_to_list dir).*1 = dom dir ∧
  length (map_to_list dir).*1 = size (dom dir).
Proof.
  split_and!.
  - apply NoDup_fst_map_to_list.
  - apply leibniz_equiv. symmetry. apply dom_alt.
  - by rewrite length_fmap, length_map_to_list, size_dom.
Qed.

(** One call of [store_checkpoint], for any retention value: given the
    directory it returns, having written the new file first and then removed
    the files with the [m] lowest tags, [m] being what the slice
    [sidx[:-keep_n_checkpoints]] selects. *)
Lemma store_checkpoint_ok w dir :
  checkpoints (disk w) = Some dir →
  let e := epoch (tr w) in
  let dir1 := <[e:=state_dict (tr w)]> dir in
  let keys := (sorted_pairs (map_to_list dir1).*1).*1 in
  let K := keep_n_checkpoints (config (tr w)) in
  let m := if bool_decide (K < Z.of_nat (size (dom dir1)))
           then if decide (0 ≤ - K) then Z.to_nat (- K)
                else Z.to_nat (Z.of_nat (size (dom dir1)) - K)
           else 0%nat in
  ∃ dir',
    store_checkpoint w
    = Ok tt (mkWorld (tr w) (with_checkpoints dir' (disk w))
               (trace w ++ EvSave e :: (EvRemove <$> take m keys))) ∧
    dir' ⊆ dir1 ∧
    dom dir' = dom dir1 ∖ list_to_set (take m keys) ∧
    keys ≡ₚ (map_to_list dir1).*1.
Proof.
  intros Hdir e dir1 keys K m.
  set (w1 := mkWorld (tr w) (with_checkpoints dir1 (disk w))
               (trace w ++ [EvSave e])).
  set (chpts := (map_to_list dir1).*1).
  destruct (listdir_keys dir1) as (Hnd & Hset & Hlen).
  fold chpts in Hnd, Hset, Hlen.
  assert (store_checkpoint w
          = when (bool_decide (K < Z.of_nat (length chpts)))
              (remove_files chpts (py_slice_to (argsort chpts) (- K))) w1)
    as ->.
  { unfold store_checkpoint, torch_save, os_listdir.
    cbv beta iota delta [bind gets get_disk]. rewrite Hdir.
    cbv beta iota delta [bind gets get_disk put_disk emit ret].
    cbn [tr disk trace with_checkpoints checkpoints]. reflexivity. }
  set (P := sorted_pairs chpts).
  assert (P.*1 ≡ₚ chpts) as HP by apply sorted_pairs_keys.
  subst m. rewrite <- Hlen.
  case_bool_decide as Hgt; unfold when.
  - set (m := if decide (0 ≤ - K) then Z.to_nat (- K)
              else Z.to_nat (Z.of_nat (length chpts) - K)).
    assert (py_slice_to (argsort chpts) (- K) = (take m P).*2) as ->.
    { unfold py_slice_to, m.
      rewrite argsort_pairs, length_fmap, sorted_pairs_length, !fmap_take.
      case_decide; f_equal; lia. }
    assert (NoDup P.*1) as HndP by (by rewrite HP).
    destruct (remove_files_spec chpts (take m P) w1 dir1)
      as (dir' & Hrun & Hd & Hsub).
    + apply Forall_take, sorted_pairs_lookup.
    + rewrite fmap_take. eapply sublist_NoDup; [done|apply sublist_take].
    + intros k Hk. rewrite fmap_take in Hk.
      apply elem_of_take in Hk as (j & Hj & _).
      apply list_elem_of_lookup_2 in Hj. rewrite HP in Hj.
      rewrite <- Hset. by apply elem_of_list_to_set.
    + done.
    + exists dir'. rewrite (fmap_take fst) in Hrun, Hd.
      split_and!; [|done..].
      rewrite Hrun. subst w1. cbn [tr disk trace].
      rewrite <- app_assoc. reflexivity.
  - exists dir1. rewrite take_0, list_to_set_nil.
    split_and!; [reflexivity|done|set_solver|done].
Qed.




End Retention.



(** In a real run stores repeat epochs: the constructor stores at epoch 0,
    and with [checkpoint_interval = 1] a run of one epoch stores at epoch 1
    twice, after the batch loop and at the end of [train]. *)
Example stores_of_one_epoch :
  let o := Toy.and_then
             (Trainer_init (Toy.config false 3 2) (Plain 0%nat) 0%nat 0%nat []
                Toy.no_files)
             (train Toy.learner 1) in
  raised o = None ∧
  count_event is_save (trace (final o)) = 3%nat ∧
  size (files (final o)) = 2%nat.
Proof. vm_compute. split_and!; reflexivity. Qed.

(** ** Ensemble smoothing *)

Lemma py_getitem_nat {A} (l : list A) (i : nat) :
  py_getitem l (Z.of_nat i) = l !! i.
Proof.
  unfold py_getitem. rewrite decide_True by lia. by rewrite Nat2Z.id.
Qed.




Section Smoothing.
Context {Batch Result ModelBlob OptBlob Grad HookBlob : Type}.
Local Abbreviation World :=
  (World Batch Result ModelBlob OptBlob Grad HookBlob).


End Smoothing.



(** ** Ensemble selection of the best models *)

Lemma argmax_from_spec (l : list Qc) : ∀ pre best bestv,
  pre !! best = Some bestv →
  Forall (λ x, x ≤ bestv)%Qc pre →
  ∃ v, (pre ++ l) !! argmax_from (length pre) best bestv l = Some v ∧
       Forall (λ x, x ≤ v)%Qc (pre ++ l).
Proof.
  induction l as [|x l IH]; intros pre best bestv Hbest Hmax.
  - exists bestv. rewrite app_nil_r. done.
  - cbn [argmax_from]. rewrite (cons_middle x pre l), app_assoc.
    replace (S (length pre)) with (length (pre ++ [x]))
      by (rewrite length_app; simpl; lia).
    case_bool_decide as Hlt.
    + apply IH.
      * rewrite lookup_app_r by lia. by rewrite Nat.sub_diag.
      * apply Forall_app. split; [|by apply Forall_singleton].
        eapply Forall_impl; [exact Hmax|]. intros y Hy. simpl in Hy.
        apply Qclt_le_weak. by eapply Qcle_lt_trans.
    + apply IH.
      * rewrite lookup_app_l; [done|]. by eapply lookup_lt_Some.
      * apply Forall_app. split; [done|]. apply Forall_singleton.
        by apply Qcnot_lt_le.
Qed.

(** [argmax] of a non-empty list names a slot that holds a maximum. *)
Lemma argmax_spec (l : list Qc) :
  l ≠ [] →
  ∃ i worst, argmax l = Some i ∧ l !! i = Some worst ∧
             Forall (λ x, x ≤ worst)%Qc l.
Proof.
  destruct l as [|x l]; [done|]. intros _.
  destruct (argmax_from_spec l [x] 0%nat x) as (v & Hv & Hmax).
  - done.
  - apply Forall_singleton. apply Qcle_refl.
  - exists (argmax_from 1 0 x l), v. done.
Qed.

(** C7.  With [remember = K ≥ 1] and at most [K] best losses so far,
    [select_ensemble] returns and leaves at most [K] best losses.  Below
    capacity the validation loss is appended and the model saved to the slot
    numbered by the new length minus one.  At capacity the slot [i] found by
    [argmax] holds a maximum [worst] of the list; if the validation loss is
    strictly below [worst], slot [i] and the model saved for it are replaced,
    otherwise nothing at all changes.  No other slot is touched. *)
Theorem C7_select_ensemble
    {Batch Result ModelBlob OptBlob Grad HookBlob : Type}
    (w : World Batch Result ModelBlob OptBlob Grad HookBlob)
    (K : nat) (val_loss : Qc) :
  remember (config (tr w)) = Z.of_nat K →
  (1 ≤ K)%nat →
  (length (best_losses (tr w)) ≤ K)%nat →
  let bl := best_losses (tr w) in
  ∃ w',
    select_ensemble val_loss w = Ok tt w' ∧
    (length (best_losses (tr w')) ≤ K)%nat ∧
    (if decide (length bl < K)%nat then
       let slot := (length (bl ++ [val_loss]) - 1)%nat in
       w' = mkWorld (set_best_losses (bl ++ [val_loss]) (tr w))
              (mkDisk (checkpoints (disk w))
                 (<[Some slot:=_model (tr w)]> (best_models (disk w))))
              (trace w ++ [EvSaveBest (Some slot)]) ∧
       ∀ j, (j < length bl)%nat → best_losses (tr w') !! j = bl !! j
     else
       ∃ i worst,
         argmax bl = Some i ∧ bl !! i = Some worst ∧
         Forall (λ x, x ≤ worst)%Qc bl ∧
         (if decide (val_loss < worst)%Qc then
            w' = mkWorld (set_best_losses (<[i:=val_loss]> bl) (tr w))
                   (mkDisk (checkpoints (disk w))
                      (<[Some i:=_model (tr w)]> (best_models (disk w))))
                   (trace w ++ [EvSaveBest (Some i)])
          else w' = w) ∧
         ∀ j, j ≠ i → best_losses (tr w') !! j = bl !! j).
Proof.
  intros HK HK1 Hlen bl.
  unfold select_ensemble. cbv beta iota delta [bind gets]. fold bl. rewrite HK.
  destruct (decide (length bl < K)%nat) as [Hlt|Hge].
  - rewrite bool_decide_eq_true_2 by lia.
    eexists. split; [reflexivity|].
    cbn [tr best_losses set_best_losses].
    split_and!; [rewrite length_app; simpl; lia|reflexivity|].
    intros j Hj. by rewrite lookup_app_l.
  - rewrite bool_decide_eq_false_2 by lia.
    destruct (argmax_spec bl) as (i & worst & Hi & Hw & Hmax).
    { intros Hnil. rewrite Hnil in Hge. simpl in Hge. lia. }
    rewrite Hi, Hw.
    destruct (decide (val_loss < worst)%Qc) as [Hbetter|Hworse].
    + rewrite bool_decide_eq_true_2 by done.
      eexists. split; [reflexivity|].
      cbn [tr best_losses set_best_losses].
      split; [by rewrite length_insert|].
      exists i, worst. rewrite decide_True by done.
      split_and!; [done..|].
      intros j Hj. by rewrite list_lookup_insert_ne.
    + rewrite bool_decide_eq_false_2 by done.
      exists w. split; [reflexivity|]. split; [done|].
      exists i, worst. rewrite decide_False by done. done.
Qed.

Lemma C7_select_ensemble_witness :
  let w : Toy.TWorld :=
    mkWorld (mkTrainer (Toy.config true 3 2) [] (Plain 7%nat) false 0%nat
               0%nat 3%nat (Some []) 4%nat PlusInf [Qc_of_Z 5; Qc_of_Z 8])
            Toy.empty_dir [] in
  let val_loss := Qc_of_Z 6 in
  let bl := best_losses (tr w) in
  ∃ w',
    select_ensemble val_loss w = Ok tt w' ∧
    (length (best_losses (tr w')) ≤ 2)%nat ∧
    (if decide (length bl < 2)%nat then
       let slot := (length (bl ++ [val_loss]) - 1)%nat in
       w' = mkWorld (set_best_losses (bl ++ [val_loss]) (tr w))
              (mkDisk (checkpoints (disk w))
                 (<[Some slot:=_model (tr w)]> (best_models (disk w))))
              (trace w ++ [EvSaveBest (Some slot)]) ∧
       ∀ j, (j < length bl)%nat → best_losses (tr w') !! j = bl !! j
     else
       ∃ i worst,
         argmax bl = Some i ∧ bl !! i = Some worst ∧
         Forall (λ x, x ≤ worst)%Qc bl ∧
         (if decide (val_loss < worst)%Qc then
            w' = mkWorld (set_best_losses (<[i:=val_loss]> bl) (tr w))
                   (mkDisk (checkpoints (disk w))
                      (<[Some i:=_model (tr w)]> (best_models (disk w))))
                   (trace w ++ [EvSaveBest (Some i)])
          else w' = w) ∧
         ∀ j, j ≠ i → best_losses (tr w') !! j = bl !! j).
Proof.
  intros w val_loss bl.
  apply (C7_select_ensemble w 2 val_loss); [reflexivity | lia | simpl; lia].
Defined.

(** With the best losses 5 and 8 and [remember = 2] the list is at
    capacity; slot 1 holds the maximum 8 and is replaced by the validation
    loss 6. *)
Example select_ensemble_replaces :
  let w : Toy.TWorld :=
    mkWorld (mkTrainer (Toy.config true 3 2) [] (Plain 7%nat) false 0%nat
               0%nat 3%nat (Some []) 4%nat PlusInf [Qc_of_Z 5; Qc_of_Z 8])
            Toy.empty_dir [] in
  best_losses (tr (final (select_ensemble (Qc_of_Z 6) w)))
  = [Qc_of_Z 5; Qc_of_Z 6].
Proof. vm_compute. reflexivity. Qed.

(** With [remember = 0] the list is at capacity while empty, and [argmax]
    raises. *)
Example select_ensemble_remember_0 :
  raised (select_ensemble (Qc_of_Z 6) (Toy.start true 3 0))
  = Some ValueError.
Proof. vm_compute. reflexivity. Qed.
(** ** Dispatching a callback to the hooks *)

Section Dispatch.
Context {Batch Result ModelBlob OptBlob Grad HookBlob : Type}.
Local Abbreviation World :=
  (World Batch Result ModelBlob OptBlob Grad HookBlob).
Local Abbreviation Trainer :=
  (Trainer Batch Result ModelBlob OptBlob Grad HookBlob).
Local Abbreviation HookObj := (HookObj Batch Result HookBlob).
Implicit Types (w : World) (t : Trainer) (hs : list HookObj).

Lemma hook_update_id w : hook_update (hooks (tr w)) (_stop (tr w)) [] w = w.
Proof.
  destruct w as [[] ? ?]. unfold hook_update. simpl. by rewrite app_nil_r.
Qed.

Lemma hook_update_compose hs1 s1 evs1 hs2 s2 evs2 w :
  hook_update hs2 s2 evs2 (hook_update hs1 s1 evs1 w)
  = hook_update hs2 s2 (evs1 ++ evs2) w.
Proof. unfold hook_update. simpl. by rewrite app_assoc. Qed.

Lemma hook_update_log_only evs w :
  mkWorld (tr w) (disk w) (trace w ++ evs)
  = hook_update (hooks (tr w)) (_stop (tr w)) evs w.
Proof. destruct w as [[] ? ?]. reflexivity. Qed.

Lemma call_hook_spec c a i w h :
  hooks (tr w) !! i = Some h →
  call_hook c a i w
  = match hook_cb h c a (view (tr w)) (hook_state h) with
    | inl e => Raise e (hook_update (hooks (tr w)) (_stop (tr w))
                          [EvHook i c] w)
    | inr r => Ok tt (hook_update (<[i:=put_hook_state h r.1]> (hooks (tr w)))
                        r.2 [EvHook i c] w)
    end.
Proof.
  intros Hh. unfold call_hook. cbv beta iota delta [bind gets].
  rewrite Hh. cbv beta iota delta [bind gets emit]. cbn [tr disk trace].
  destruct (hook_cb h c a (view (tr w)) (hook_state h)) as [e|[s' stop']];
    cbn [call]; cbv beta iota delta [raise ret bind modify].
  - by rewrite hook_update_log_only.
  - reflexivity.
Qed.

Lemma hook_cb_insert hs i h s :
  hs !! i = Some h →
  hook_cb <$> <[i:=put_hook_state h s]> hs = hook_cb <$> hs.
Proof.
  intros Hh. rewrite list_fmap_insert. cbn [put_hook_state hook_cb].
  apply list_insert_id. by rewrite list_lookup_fmap, Hh.
Qed.

(** A pass over the hooks [i], ..., [i + n - 1] either completes, having
    called each of them once in order, or stops at the first hook that
    raises; the callbacks of the hooks never change. *)
Lemma dispatch_from_spec c a n : ∀ i w,
  (i + n ≤ length (hooks (tr w)))%nat →
  ∃ hs stop,
    hook_cb <$> hs = hook_cb <$> hooks (tr w) ∧
    (dispatch_from c a i n w
     = Ok tt (hook_update hs stop (hook_events c i n) w)
     ∨ ∃ e m, (m < n)%nat ∧
         dispatch_from c a i n w
         = Raise e (hook_update hs stop (hook_events c i (S m)) w)).
Proof.
  induction n as [|n IH]; intros i w Hlen.
  - exists (hooks (tr w)), (_stop (tr w)). split; [done|]. left.
    cbn. unfold ret. by rewrite hook_update_id.
  - destruct (lookup_lt_is_Some_2 (hooks (tr w)) i) as [h Hh]; [lia|].
    cbn [dispatch_from]. unfold bind. rewrite (call_hook_spec c a i w h Hh).
    destruct (hook_cb h c a (view (tr w)) (hook_state h)) as [e|[s' stop']].
    + exists (hooks (tr w)), (_stop (tr w)). split; [done|].
      right. exists e, 0%nat. split; [lia|]. reflexivity.
    + cbn [fst snd].
      set (w1 := hook_update (<[i:=put_hook_state h s']> (hooks (tr w)))
                   stop' [EvHook i c] w).
      destruct (IH (S i) w1) as (hs & stop & Hcb & Hrun).
      { subst w1. cbn [hook_update tr hooks set_stop set_hooks].
        rewrite length_insert. lia. }
      exists hs, stop. split.
      { rewrite Hcb. subst w1. cbn [hook_update tr hooks set_stop set_hooks].
        by apply hook_cb_insert. }
      destruct Hrun as [Hok|(e & m & Hm & Hraise)].
      * left. rewrite Hok. subst w1. by rewrite hook_update_compose.
      * right. exists e, (S m). split; [lia|].
        rewrite Hraise. subst w1. by rewrite hook_update_compose.
Qed.

Lemma dispatch_spec c a w :
  let n := length (hooks (tr w)) in
  ∃ hs stop,
    hook_cb <$> hs = hook_cb <$> hooks (tr w) ∧
    (dispatch c a w = Ok tt (hook_update hs stop (hook_events c 0 n) w)
     ∨ ∃ e m, (m < n)%nat ∧
         dispatch c a w
         = Raise e (hook_update hs stop (hook_events c 0 (S m)) w)).
Proof.
  intros n. unfold dispatch. cbv beta iota delta [bind gets].
  by apply dispatch_from_spec.
Qed.

Lemma dispatch_from_quiet c a n : ∀ i w,
  (i + n ≤ length (hooks (tr w)))%nat →
  Forall quiet (hook_cb <$> hooks (tr w)) →
  ∃ hs,
    hook_cb <$> hs = hook_cb <$> hooks (tr w) ∧
    dispatch_from c a i n w
    = Ok tt (hook_update hs (_stop (tr w)) (hook_events c i n) w).
Proof.
  induction n as [|n IH]; intros i w Hlen Hq.
  - exists (hooks (tr w)). split; [done|].
    cbn. unfold ret. by rewrite hook_update_id.
  - destruct (lookup_lt_is_Some_2 (hooks (tr w)) i) as [h Hh]; [lia|].
    cbn [dispatch_from]. unfold bind. rewrite (call_hook_spec c a i w h Hh).
    assert (quiet (hook_cb h)) as Hqh.
    { eapply Forall_forall in Hq; [exact Hq|].
      apply list_elem_of_fmap. exists h. split; [done|].
      by eapply list_elem_of_lookup_2. }
    destruct (Hqh c a (view (tr w)) (hook_state h)) as [s' ->].
    cbn [fst snd view v_stop].
    set (w1 := hook_update (<[i:=put_hook_state h s']> (hooks (tr w)))
                 (_stop (tr w)) [EvHook i c] w).
    assert (hook_cb <$> hooks (tr w1) = hook_cb <$> hooks (tr w)) as Hcb1.
    { subst w1. cbn [hook_update tr hooks set_stop set_hooks].
      by apply hook_cb_insert. }
    destruct (IH (S i) w1) as (hs & Hcb & Hrun).
    { subst w1. cbn [hook_update tr hooks set_stop set_hooks].
      rewrite length_insert. lia. }
    { by rewrite Hcb1. }
    exists hs. split; [by rewrite Hcb, Hcb1|].
    rewrite Hrun. subst w1. by rewrite hook_update_compose.
Qed.

Lemma dispatch_quiet c a w :
  Forall quiet (hook_cb <$> hooks (tr w)) →
  ∃ hs,
    hook_cb <$> hs = hook_cb <$> hooks (tr w) ∧
    dispatch c a w
    = Ok tt (hook_update hs (_stop (tr w))
               (hook_events c 0 (length (hooks (tr w)))) w).
Proof.
  intros Hq. unfold dispatch. cbv beta iota delta [bind gets].
  by apply dispatch_from_quiet.
Qed.

End Dispatch.
(** ** Stopping, finishing and failing *)

Section Protocol.
Context {Batch Result ModelBlob OptBlob Grad HookBlob : Type}.
Context (L : Learner Batch Result ModelBlob OptBlob Grad).
Local Abbreviation World :=
  (World Batch Result ModelBlob OptBlob Grad HookBlob).
Implicit Types (w : World).

(** A completed pass over the hooks logs one call per hook, in order, and
    changes nothing but hook states and the stop flag. *)
Lemma dispatch_ok c a w w' :
  dispatch c a w = Ok tt w' →
  ∃ hs stop,
    hook_cb <$> hs = hook_cb <$> hooks (tr w) ∧
    w' = hook_update hs stop (hook_events c 0 (length (hooks (tr w)))) w.
Proof.
  intros Hrun.
  destruct (dispatch_spec c a w) as (hs & stop & Hcb & [Hok|(e & m & _ & Hr)]).
  - exists hs, stop. split; [done|]. congruence.
  - congruence.
Qed.

(** A pass that is cut short by a raising hook has called the hooks up to
    and including that one, and no other. *)
Lemma dispatch_raise c a w e w' :
  dispatch c a w = Raise e w' →
  ∃ hs stop m,
    (m < length (hooks (tr w)))%nat ∧
    hook_cb <$> hs = hook_cb <$> hooks (tr w) ∧
    w' = hook_update hs stop (hook_events c 0 (S m)) w.
Proof.
  intros Hrun.
  destruct (dispatch_spec c a w) as (hs & stop & Hcb & [Hok|(e' & m & ? & Hr)]).
  - congruence.
  - exists hs, stop, m. split_and!; [done..|]. congruence.
Qed.

End Protocol.

(** C9.  Let the trainer stand at the head of the epoch loop with [E - 1]
    completed epochs and at least one iteration to go.  If the
    [on_epoch_begin] pass of epoch [E] completes with the stop flag set, the
    loop ends there: the epoch counter is back at [E - 1], the step counter,
    the model, the optimizer and the files are untouched, and the only
    actions logged for epoch [E] are the [on_epoch_begin] calls - no
    [on_batch_begin], no model call, no optimizer step. *)
Theorem C9_stop_at_epoch_begin
    {Batch Result ModelBlob OptBlob Grad HookBlob : Type}
    (L : Learner Batch Result ModelBlob OptBlob Grad)
    (w w2 : World Batch Result ModelBlob OptBlob Grad HookBlob)
    (n E : nat) :
  E = S (epoch (tr w)) →
  dispatch on_epoch_begin no_args
    (mkWorld (set_epoch E (tr w)) (disk w) (trace w)) = Ok tt w2 →
  _stop (tr w2) = true →
  ∃ w',
    epoch_loop L (S n) w = Ok tt w' ∧
    epoch (tr w') = (E - 1)%nat ∧
    step (tr w') = step (tr w) ∧
    _model (tr w') = _model (tr w) ∧
    optimizer (tr w') = optimizer (tr w) ∧
    disk w' = disk w ∧
    trace w' = trace w ++ hook_events on_epoch_begin 0 (length (hooks (tr w))).
Proof.
  intros -> Hrun Hstop.
  destruct (dispatch_ok _ _ _ _ Hrun) as (hs & stop & _ & Hw2).
  exists (mkWorld (set_epoch (epoch (tr w2) - 1) (tr w2)) (disk w2) (trace w2)).
  split.
  - cbn [epoch_loop]. cbv beta iota delta [bind modify gets].
    rewrite Hrun. cbv beta iota. by rewrite Hstop.
  - subst w2. cbn. split_and!; reflexivity.
Qed.

Lemma C9_stop_at_epoch_begin_witness :
  ∃ w',
    epoch_loop Toy.learner 3 Toy.C9_start = Ok tt w' ∧
    epoch (tr w') = (5 - 1)%nat ∧
    step (tr w') = step (tr Toy.C9_start) ∧
    _model (tr w') = _model (tr Toy.C9_start) ∧
    optimizer (tr w') = optimizer (tr Toy.C9_start) ∧
    disk w' = disk Toy.C9_start ∧
    trace w'
    = trace Toy.C9_start ++
      hook_events on_epoch_begin 0 (length (hooks (tr Toy.C9_start))).
Proof.
  apply (C9_stop_at_epoch_begin Toy.learner Toy.C9_start Toy.C9_w2 2 5);
    vm_compute; reflexivity.
Defined.

Lemma count_event_app P (l1 l2 : list event) :
  count_event P (l1 ++ l2) = (count_event P l1 + count_event P l2)%nat.
Proof. unfold count_event. by rewrite filter_app, length_app. Qed.

Lemma count_event_none P (l : list event) :
  Forall (λ ev, P ev = false) l → count_event P l = 0%nat.
Proof.
  unfold count_event. induction 1 as [|ev l Hev _ IH]; [done|].
  rewrite filter_cons_False; [done|]. by rewrite Hev.
Qed.

Lemma hook_events_not P c i n :
  (∀ j, P (EvHook j c) = false) → count_event P (hook_events c i n) = 0%nat.
Proof.
  intros HP. apply count_event_none. unfold hook_events.
  apply Forall_fmap, Forall_forall. intros j _. apply HP.
Qed.




(** C8, as amended.  Let [train] have completed its [on_train_begin] pass
    and let the body of its [try] statement raise [e], an [Exception].  Then
    [on_train_failed] is dispatched to the hooks in registration order.  If
    that pass completes, every hook has been called exactly once and [train]
    raises the original [e].  If a hook raises [e'] inside the pass, the
    pass ends with that hook, the later hooks are not called, and [train]
    raises [e'] in place of [e]: nothing is swallowed. *)
Theorem C8_failure
    {Batch Result ModelBlob OptBlob Grad HookBlob : Type}
    (L : Learner Batch Result ModelBlob OptBlob Grad)
    (w w0 w1 : World Batch Result ModelBlob OptBlob Grad HookBlob)
    (n_epochs : Z) (e : exn) :
  dispatch on_train_begin no_args
    (mkWorld (set_stop false (tr w)) (disk w) (trace w)) = Ok tt w0 →
  train_body L n_epochs w0 = Raise e w1 →
  is_Exception e = true →
  let nh := length (hooks (tr w1)) in
  match dispatch on_train_failed no_args w1 with
  | Ok _ w2 =>
      train L n_epochs w = Raise e w2 ∧
      trace w2 = trace w1 ++ hook_events on_train_failed 0 nh
  | Raise e' w2 =>
      train L n_epochs w = Raise e' w2 ∧
      ∃ m, (m < nh)%nat ∧
           trace w2 = trace w1 ++ hook_events on_train_failed 0 (S m)
  end.
Proof.
  intros Hbegin Hbody Hexc nh.
  assert (train L n_epochs w
          = match dispatch on_train_failed no_args w1 with
            | Ok _ w2 => Raise e w2
            | Raise e' w2 => Raise e' w2
            end) as Htrain.
  { unfold train. cbv beta iota delta [bind modify].
    rewrite Hbegin. cbv beta iota. unfold try_except.
    rewrite Hbody, Hexc. unfold train_failed.
    cbv beta iota delta [bind raise].
    by destruct (dispatch on_train_failed no_args w1) as [[] ?|? ?]. }
  destruct (dispatch on_train_failed no_args w1) as [[] w2|e' w2] eqn:Hd.
  - split; [done|].
    destruct (dispatch_ok _ _ _ _ Hd) as (hs & stop & _ & ->). reflexivity.
  - split; [done|].
    destruct (dispatch_raise _ _ _ _ _ Hd) as (hs & stop & m & Hm & _ & ->).
    exists m. split; [done|]. reflexivity.
Qed.

Lemma C8_failure_witness :
  match dispatch on_train_failed no_args Toy.C8_w1 with
  | Ok _ w2 =>
      train Toy.learner 2 Toy.C8_start = Raise (UserError 1) w2 ∧
      trace w2
      = trace Toy.C8_w1 ++
        hook_events on_train_failed 0 (length (hooks (tr Toy.C8_w1)))
  | Raise e' w2 =>
      train Toy.learner 2 Toy.C8_start = Raise e' w2 ∧
      ∃ m, (m < length (hooks (tr Toy.C8_w1)))%nat ∧
           trace w2 = trace Toy.C8_w1 ++ hook_events on_train_failed 0 (S m)
  end.
Proof.
  apply (C8_failure Toy.learner Toy.C8_start Toy.C8_w0 Toy.C8_w1 2
           (UserError 1));
    vm_compute; reflexivity.
Defined.

(** C8 as stated fails: the body of the [try] raises [UserError 1]; the
    first hook raises [UserError 2] inside the [on_train_failed]
    notification; that error is not swallowed but is what [train] raises,
    and the second hook is never notified. *)
Lemma C8_counterexample :
  let w0 := final (dispatch on_train_begin no_args Toy.C8_masked) in
  raised (train_body Toy.learner 2 w0) = Some (UserError 1) ∧
  raised (train Toy.learner 2 Toy.C8_masked) = Some (UserError 2) ∧
  EvHook 0 on_train_failed ∈ trace (final (train Toy.learner 2 Toy.C8_masked)) ∧
  EvHook 1 on_train_failed ∉ trace (final (train Toy.learner 2 Toy.C8_masked)).
Proof.
  split_and!; [vm_compute; reflexivity..| |].
  - apply (bool_decide_unpack _). vm_compute. exact I.
  - apply (bool_decide_unpack _). vm_compute. exact I.
Qed.

(** An error raised by a hook in [on_train_begin], which runs before the
    [try] statement, reaches the caller without any [on_train_failed]
    call. *)
Example train_begin_error_not_notified :
  let w : Toy.TWorld :=
    mkWorld (set_epoch_losses (Some [])
               (blank_trainer (Toy.config false 3 2) (Plain 0%nat) 0%nat
                  0%nat [Toy.raising_hook on_train_begin 1]))
      Toy.empty_dir [] in
  raised (train Toy.learner 2 w) = Some (UserError 1) ∧
  trace (final (train Toy.learner 2 w)) = [EvHook 0 on_train_begin].
Proof. vm_compute. split; reflexivity. Qed.
(** ** Gradient accumulation *)

(** *** Counting the accumulation windows *)

Lemma div_succ (A n : nat) :
  (1 ≤ A)%nat →
  (S n / A = n / A + if decide (S n `mod` A = 0) then 1 else 0)%nat.
Proof.
  intros HA.
  pose proof (Nat.div_mod_eq n A) as Hn.
  pose proof (Nat.mod_upper_bound n A ltac:(lia)) as Hr.
  destruct (decide (S (n `mod` A) = A)) as [Hfull|Hpart].
  - rewrite <- (Nat.mod_unique (S n) A (S (n / A)) 0) by lia.
    rewrite decide_True by done.
    symmetry. apply (Nat.div_unique (S n) A _ 0%nat); lia.
  - rewrite <- (Nat.mod_unique (S n) A (n / A) (S (n `mod` A))) by lia.
    rewrite decide_False by done.
    symmetry. apply (Nat.div_unique (S n) A _ (S (n `mod` A))); lia.
Qed.

Lemma mod_succ (A n : nat) :
  (1 ≤ A)%nat →
  (S n `mod` A = if decide (S (n `mod` A) = A) then 0 else S (n `mod` A))%nat.
Proof.
  intros HA.
  pose proof (Nat.div_mod_eq n A) as Hn.
  pose proof (Nat.mod_upper_bound n A ltac:(lia)) as Hr.
  case_decide as Hfull.
  - symmetry. apply (Nat.mod_unique (S n) A (S (n / A)) 0); lia.
  - symmetry. apply (Nat.mod_unique (S n) A (n / A)); lia.
Qed.

Lemma filter_ext_Forall {X} (P Q : X → Prop)
    `{!∀ x, Decision (P x), !∀ x, Decision (Q x)} (l : list X) :
  Forall (λ x, P x ↔ Q x) l → filter P l = filter Q l.
Proof.
  induction 1 as [|x l Hx _ IH]; [done|].
  rewrite !filter_cons, IH. repeat case_decide; naive_solver.
Qed.

Lemma multiples_count (A b : nat) :
  (1 ≤ A)%nat →
  length (filter (λ i, i `mod` A = 0)%nat (seq 1 b)) = (b / A)%nat.
Proof.
  intros HA. induction b as [|b IH].
  - simpl. symmetry. apply Nat.div_small. lia.
  - rewrite seq_S, filter_app, length_app, IH, (div_succ A b HA).
    f_equal. simpl. rewrite filter_cons, filter_nil.
    repeat case_decide; done.
Qed.

(** Among the batch numbers [1..B] exactly [ceil(B / A)] close a window. *)
Lemma due_count (A B : nat) :
  (1 ≤ A)%nat →
  length (filter (λ i, step_due A B i = true) (seq 1 B)) = windows A B.
Proof.
  intros HA. unfold windows. destruct B as [|b].
  - simpl. symmetry. apply Nat.div_small. lia.
  - rewrite seq_S, filter_app, length_app.
    replace (S b + A - 1)%nat with (b + 1 * A)%nat by lia.
    rewrite Nat.div_add by lia. f_equal.
    + rewrite <- (multiples_count A b HA).
      f_equal. apply filter_ext_Forall.
      apply Forall_forall. intros i Hi%elem_of_seq. unfold step_due.
      rewrite (bool_decide_eq_false_2 (i = S b)) by lia.
      rewrite orb_false_r. by rewrite bool_decide_eq_true.
    + simpl. rewrite filter_cons_True; [done|].
      unfold step_due. rewrite (bool_decide_eq_true_2 (S b = S b)) by done.
      apply orb_true_r.
Qed.

Lemma batch_events_steps nh A B i :
  count_event is_optimizer_step (batch_events nh A B i)
  = if step_due A B i then 1%nat else 0%nat.
Proof.
  unfold batch_events. rewrite count_event_app, hook_events_not by done.
  change ([EvForward; EvBackward] ++ ?l) with ([EvForward; EvBackward] ++ l).
  rewrite count_event_app. destruct (step_due A B i).
  - rewrite !count_event_app, hook_events_not by done. reflexivity.
  - reflexivity.
Qed.

Lemma flat_map_steps nh A B (l : list nat) :
  count_event is_optimizer_step (flat_map (batch_events nh A B) l)
  = length (filter (λ i, step_due A B i = true) l).
Proof.
  induction l as [|i l IH]; [done|].
  cbn [flat_map]. rewrite count_event_app, batch_events_steps, IH.
  rewrite filter_cons. destruct (step_due A B i) eqn:Hi.
  - rewrite decide_True by done. reflexivity.
  - rewrite decide_False by done. reflexivity.
Qed.

(** *** Running the batch loop *)

Lemma returns_bind {W A B} (m : M W A) (k : A → M W B) w Q :
  returns m w (λ a w', returns (k a) w' Q) → returns (bind m k) w Q.
Proof.
  intros (a & w' & Hm & b & w'' & Hk & HQ).
  exists b, w''. split; [|done]. unfold bind. by rewrite Hm.
Qed.

Lemma returns_ret {W A} (a : A) (w : W) (Q : A → W → Prop) :
  Q a w → returns (ret a) w Q.
Proof. intros HQ. by exists a, w. Qed.

Section BatchLoop.
Context {Batch Result ModelBlob OptBlob Grad HookBlob : Type}.
Context (L : Learner Batch Result ModelBlob OptBlob Grad).
Local Abbreviation World :=
  (World Batch Result ModelBlob OptBlob Grad HookBlob).
Implicit Types (w : World).

Lemma load_model_set_model sd
    (t : Trainer Batch Result ModelBlob OptBlob Grad HookBlob) :
  _load_model_state_dict sd t
  = set_model (if _check_is_parallel t then DataParallel sd else Plain sd) t.
Proof. unfold _load_model_state_dict. by destruct (_check_is_parallel t). Qed.

Lemma returns_gets {X} (f : _ → X) w (Q : X → World → Prop) :
  Q (f (tr w)) w → returns (gets f) w Q.
Proof. intros HQ. by eexists _, _. Qed.

Lemma returns_modify f w (Q : unit → World → Prop) :
  Q tt (mkWorld (f (tr w)) (disk w) (trace w)) → returns (modify f) w Q.
Proof. intros HQ. by eexists _, _. Qed.

Lemma returns_emit ev w (Q : unit → World → Prop) :
  Q tt (mkWorld (tr w) (disk w) (trace w ++ [ev])) → returns (emit ev) w Q.
Proof. intros HQ. by eexists _, _. Qed.

Lemma returns_dispatch_quiet c a w (Q : unit → World → Prop) :
  Forall quiet (hook_cb <$> hooks (tr w)) →
  (∀ hs, hook_cb <$> hs = hook_cb <$> hooks (tr w) →
         Q tt (hook_update hs (_stop (tr w))
                 (hook_events c 0 (length (hooks (tr w)))) w)) →
  returns (dispatch c a) w Q.
Proof.
  intros Hq HQ. destruct (dispatch_quiet c a w Hq) as (hs & Hcb & Hrun).
  eexists _, _. split; [exact Hrun|]. by apply HQ.
Qed.

Lemma returns_model_call training b w (Q : Result → World → Prop) :
  total_learner L →
  (∀ r, Q r (mkWorld (tr w) (disk w) (trace w ++ [EvForward]))) →
  returns (model_call L training b) w Q.
Proof.
  intros [Hfwd _] HQ.
  destruct (Hfwd training (model_state_dict (_model (tr w))) b) as [r Hr].
  exists r, (mkWorld (tr w) (disk w) (trace w ++ [EvForward])).
  split; [|apply HQ].
  unfold model_call. cbv beta iota delta [bind gets emit].
  cbn [tr]. by rewrite Hr.
Qed.

Lemma returns_loss b r w (Q : Qc → World → Prop) :
  total_learner L →
  (∀ l, Q l w) → returns (call (loss_fn L b r)) w Q.
Proof.
  intros [_ Hloss] HQ. destruct (Hloss b r) as [l Hl].
  exists l, w. split; [|apply HQ]. by rewrite Hl.
Qed.

Lemma hooks_length w w' :
  hook_cb <$> hooks (tr w') = hook_cb <$> hooks (tr w) →
  length (hooks (tr w')) = length (hooks (tr w)).
Proof. intros H. by rewrite <- (length_fmap hook_cb), H, length_fmap. Qed.

Lemma returns_weaken {X} (m : M World X) w (Q Q' : X → World → Prop) :
  returns m w Q → (∀ a w', Q a w' → Q' a w') → returns m w Q'.
Proof. intros (a & w' & Hm & HQ) Himp. exists a, w'. auto. Qed.

Lemma advanced_trans w w1 w2 evs1 evs2 k1 k2 :
  advanced w evs1 k1 w1 → advanced w1 evs2 k2 w2 →
  advanced w (evs1 ++ evs2) (k1 + k2) w2.
Proof.
  intros (Hn1 & Hh1 & Hs1 & Ht1 & Hk1) (Hn2 & Hh2 & Hs2 & Ht2 & Hk2).
  unfold advanced. rewrite Hn2, Hh2, Hs2, Ht2, Hk2, Ht1, Hk1.
  split_and!; [done..|by rewrite app_assoc|lia].
Qed.

Lemma batch_loop_spec (A B : nat) (rest : list Batch) :
  ∀ (i : nat) (loss_sum : Qc) w,
  (i + length rest = B)%nat →
  n_acc_steps (config (tr w)) = Z.of_nat A → (1 ≤ A)%nat →
  total_learner L →
  Forall quiet (hook_cb <$> hooks (tr w)) →
  _stop (tr w) = false →
  returns (batch_loop L B rest i (i `mod` A) loss_sum) w
    (λ _, advanced w
            (flat_map (batch_events (length (hooks (tr w))) A B)
               (seq (S i) (length rest)))
            (length (filter (λ j, step_due A B j = true)
                       (seq (S i) (length rest))))).
Proof.
  induction rest as [|b rest IH]; intros i loss_sum w HB HA HA1 Htot Hq Hstop.
  - apply returns_ret. unfold advanced. cbn.
    rewrite app_nil_r, Nat.add_0_r. done.
  - cbn [batch_loop length seq flat_map]. cbn [length] in HB.
    assert (step_due A B (S i)
            = bool_decide (Z.of_nat (S (i `mod` A)) = Z.of_nat A)
              || bool_decide (S i = B)) as Hdue.
    { unfold step_due. f_equal. rewrite (mod_succ A i HA1).
      apply bool_decide_ext. case_decide; lia. }
    set (nh := length (hooks (tr w))).
    apply returns_bind, returns_dispatch_quiet; [done|]. intros hs1 Hcb1.
    fold nh.
    apply returns_bind, returns_model_call; [done|]. intros r. wsimpl.
    apply returns_bind, returns_loss; [done|]. intros l.
    apply returns_bind, returns_gets. wsimpl. rewrite HA.
    apply returns_bind, returns_bind, returns_emit, returns_modify. wsimpl.
    rewrite <- Hdue. unfold batch_events at 1.
    rewrite filter_cons.
    destruct (step_due A B (S i)) eqn:Hd.
    + rewrite decide_True by done.
      apply returns_bind, returns_bind, returns_emit, returns_modify. wsimpl.
      rewrite load_model_set_model.
      apply returns_bind, returns_modify. wsimpl.
      apply returns_bind, returns_dispatch_quiet.
      { wsimpl. by rewrite Hcb1. }
      intros hs2 Hcb2. wsimpl in Hcb2. wsimpl.
      assert (length hs1 = nh) as Hlen1
        by (by rewrite <- (length_fmap hook_cb), Hcb1, length_fmap).
      rewrite Hlen1.
      apply returns_bind, returns_gets. wsimpl. rewrite Hstop.
      apply returns_bind, returns_bind, returns_emit, returns_modify. wsimpl.
      match goal with
      | |- returns _ ?w1 _ => set (w1' := w1)
      end.
      assert (advanced w
                (hook_events on_batch_begin 0 nh ++ [EvForward; EvBackward] ++
                 [EvOptimizerStep] ++ hook_events on_batch_end 0 nh ++
                 [EvZeroGrad]) 1 w1') as Hadv.
      { unfold advanced, w1'. wsimpl. rewrite Hcb2, Hcb1.
        split_and!; [done..| |lia].
        rewrite <- !app_assoc. reflexivity. }
      destruct (decide (S (i `mod` A) = A)) as [Hfull|Hpart].
      * assert ((S i) `mod` A = 0)%nat as Hmod
          by (rewrite (mod_succ A i HA1); by rewrite decide_True).
        pose proof Hadv as (Hn' & Hh' & Hs' & _).
        pose proof (IH (S i) 0%Qc w1') as IH'. rewrite Hmod in IH'.
        eapply returns_weaken.
        { apply IH'; [lia|by rewrite Hn'|done..|by rewrite Hh'|by rewrite Hs']. }
        intros [] w' Hw'. cbn beta in Hw'.
        assert (length (hooks (tr w1')) = nh) as Hl
          by (apply hooks_length; apply Hadv).
        rewrite Hl in Hw'.
        by apply (advanced_trans w w1' w' _ _ 1).
      * (* the window is flushed because this is the last batch *)
        assert (S i = B) as HiB.
        { symmetry in Hdue. apply orb_true_iff in Hdue as [Hd'|Hd'].
          - apply bool_decide_eq_true in Hd'. lia.
          - by apply bool_decide_eq_true in Hd'. }
        assert (rest = []) as -> by (apply length_zero_iff_nil; lia).
        cbn [batch_loop length seq flat_map filter list_filter].
        apply returns_ret. rewrite app_nil_r. exact Hadv.
    + rewrite decide_False by done.
      match goal with
      | |- returns _ ?w1 _ => set (w1' := w1)
      end.
      assert (advanced w
                (hook_events on_batch_begin 0 nh ++ [EvForward; EvBackward])
                0 w1') as Hadv.
      { unfold advanced, w1'. wsimpl. rewrite Hcb1.
        split_and!; [done..| |lia].
        rewrite <- !app_assoc. reflexivity. }
      assert (S (i `mod` A) ≠ A) as Hpart.
      { intros Hfull. symmetry in Hdue.
        apply orb_false_iff in Hdue as [Hd' _].
        apply bool_decide_eq_false in Hd'. lia. }
      assert ((S i) `mod` A = S (i `mod` A))%nat as Hmod
        by (rewrite (mod_succ A i HA1); by rewrite decide_False).
      pose proof Hadv as (Hn' & Hh' & Hs' & _).
      pose proof (IH (S i) (loss_sum + l / Qc_of_Z (Z.of_nat A))%Qc w1') as IH'.
      rewrite Hmod in IH'.
      eapply returns_weaken.
      { apply IH'; [lia|by rewrite Hn'|done..|by rewrite Hh'|by rewrite Hs']. }
      intros [] w' Hw'. cbn beta in Hw'.
      assert (length (hooks (tr w1')) = nh) as Hl
        by (apply hooks_length; apply Hadv).
      rewrite Hl in Hw'.
      rewrite app_nil_r.
      by apply (advanced_trans w w1' w' _ _ 0).
Qed.

End BatchLoop.

(** C4.  Take an epoch with [B] batches, an accumulation window of
    [A ≥ 1] batches, hooks that neither raise nor touch the stop flag and a
    model and loss that do not raise.  The batch loop returns, and its log
    is, batch by batch: the [on_batch_begin] calls, the model call, the
    backward pass and then - exactly when [A] divides the batch number or
    the batch is the last one - the optimizer step, the [on_batch_end]
    calls and the gradient reset.  The step counter grows by the number of
    optimizer steps, which is [ceil(B / A)]: one per full or partial
    window. *)
Theorem C4_accumulation
    {Batch Result ModelBlob OptBlob Grad HookBlob : Type}
    (L : Learner Batch Result ModelBlob OptBlob Grad)
    (w : World Batch Result ModelBlob OptBlob Grad HookBlob) (A : nat) :
  n_acc_steps (config (tr w)) = Z.of_nat A →
  (1 ≤ A)%nat →
  total_learner L →
  Forall quiet (hook_cb <$> hooks (tr w)) →
  _stop (tr w) = false →
  let batches := train_loader (config (tr w)) in
  let B := length batches in
  let log := flat_map (batch_events (length (hooks (tr w))) A B) (seq 1 B) in
  ∃ w',
    batch_loop L B batches 0 0 0%Qc w = Ok tt w' ∧
    trace w' = trace w ++ log ∧
    count_event is_optimizer_step log = windows A B ∧
    step (tr w') = (step (tr w) + windows A B)%nat.
Proof.
  intros HA HA1 Htot Hq Hstop batches B log.
  destruct (batch_loop_spec L A B batches 0 0%Qc w)
    as ([] & w' & Hrun & Hadv); [done..|].
  rewrite Nat.Div0.mod_0_l in Hrun.
  destruct Hadv as (_ & _ & _ & Htrace & Hstep).
  fold B in Htrace, Hstep. rewrite (due_count A B HA1) in Hstep.
  exists w'. split_and!; [done..| |done].
  unfold log. by rewrite flat_map_steps, due_count.
Qed.

Lemma C4_accumulation_witness :
  let w := Toy.C4_start in
  let batches := train_loader (config (tr w)) in
  let B := length batches in
  let log := flat_map (batch_events (length (hooks (tr w))) 2 B) (seq 1 B) in
  ∃ w',
    batch_loop Toy.learner B batches 0 0 0%Qc w = Ok tt w' ∧
    trace w' = trace w ++ log ∧
    count_event is_optimizer_step log = windows 2 B ∧
    step (tr w') = (step (tr w) + windows 2 B)%nat.
Proof.
  apply (C4_accumulation Toy.learner Toy.C4_start 2).
  - reflexivity.
  - lia.
  - split; intros; eexists; reflexivity.
  - repeat constructor; intros c a v s; eexists; reflexivity.
  - reflexivity.
Defined.

(** Three batches and a window of two give two optimizer steps, after the
    second and after the third (last) batch. *)
Example accumulation_three_batches :
  trace (final (batch_loop Toy.learner 3 [0; 1; 2]%nat 0 0 0%Qc Toy.C4_start))
  = [EvHook 0 on_batch_begin; EvForward; EvBackward;
     EvHook 0 on_batch_begin; EvForward; EvBackward;
     EvOptimizerStep; EvHook 0 on_batch_end; EvZeroGrad;
     EvHook 0 on_batch_begin; EvForward; EvBackward;
     EvOptimizerStep; EvHook 0 on_batch_end; EvZeroGrad].
Proof. vm_compute. reflexivity. Qed.
(** ** The prediction history of the ensemble *)

Lemma bind_ok {W X Y} (m : M W X) (k : X → M W Y) w y w'' :
  bind m k w = Ok y w'' → ∃ x w', m w = Ok x w' ∧ k x w' = Ok y w''.
Proof.
  unfold bind. destruct (m w) as [x w'|e w'] eqn:Hm; [|done].
  intros Hk. by exists x, w'.
Qed.

Lemma call_ok {W X} (r : exn + X) (w w' : W) x :
  call r w = Ok x w' → r = inr x ∧ w' = w.
Proof. destruct r as [e|x']; cbn; [done|]. by intros [= -> ->]. Qed.

Section History.
Context {Batch Result ModelBlob OptBlob Grad HookBlob : Type}.
Context (L : Learner Batch Result ModelBlob OptBlob Grad).
Local Abbreviation World :=
  (World Batch Result ModelBlob OptBlob Grad HookBlob).
Implicit Types (w : World).

Lemma kept_refl w : kept w w.
Proof. by split_and!. Qed.

Lemma kept_trans w1 w2 w3 : kept w1 w2 → kept w2 w3 → kept w1 w3.
Proof.
  intros (H1 & H2 & H3 & H4) (H1' & H2' & H3' & H4').
  unfold kept. by rewrite H1', H2', H3', H4'.
Qed.

Lemma dispatch_kept c a w w' : dispatch c a w = Ok tt w' → kept w w'.
Proof.
  intros Hrun. destruct (dispatch_ok _ _ _ _ Hrun) as (hs & stop & _ & ->).
  by split_and!.
Qed.

Lemma model_call_ok training b w r w' :
  model_call L training b w = Ok r w' →
  forward L training (model_state_dict (_model (tr w))) b = inr r ∧
  kept w w'.
Proof.
  unfold model_call. cbv beta iota delta [bind gets emit]. cbn [tr].
  destruct (forward L training (model_state_dict (_model (tr w))) b)
    as [e|r']; cbn; [done|].
  intros [= -> <-]. split; [done|]. by split_and!.
Qed.

Lemma ensemble_pred_ok p bn w q w' :
  ensemble_pred p bn w = Ok q w' → w' = w.
Proof.
  unfold ensemble_pred. cbv beta iota delta [bind gets ret raise].
  case_bool_decide; [by intros [= _ ->]|].
  destruct (epoch_losses (tr w)) as [el|]; [|done].
  cbv beta iota delta [bind gets ret raise].
  destruct (calc_pred p el bn (remember (config (tr w)))); cbn; [done|].
  by intros [= _ ->].
Qed.

Lemma select_ensemble_kept v w w' :
  select_ensemble v w = Ok tt w' → kept w w'.
Proof.
  unfold select_ensemble, save_best.
  cbv beta iota delta [bind gets modify get_disk put_disk emit ret raise].
  case_bool_decide.
  - intros [= <-]. by split_and!.
  - destruct (argmax (best_losses (tr w))) as [i|]; [|done].
    destruct (best_losses (tr w) !! i) as [worst|]; [|done].
    case_bool_decide.
    + intros [= <-]. by split_and!.
    + intros [= <-]. apply kept_refl.
Qed.

(** In ensemble mode a completed loop over the validation batches has
    appended the raw prediction of each batch, in order, to
    [batch_losses]. *)
Lemma validation_loop_ok (batches : list Batch) :
  ∀ val_loss n_val batch_num batch_losses w r w',
  ensembleModel (config (tr w)) = true →
  validation_loop L batches val_loss n_val batch_num batch_losses w = Ok r w' →
  kept w w' ∧
  r.2 = batch_losses ++
        raw_predictions L (model_state_dict (_model (tr w))) batches ∧
  length (raw_predictions L (model_state_dict (_model (tr w))) batches)
  = length batches.
Proof.
  induction batches as [|b batches IH];
    intros val_loss n_val batch_num batch_losses w r w' Hens Hrun.
  - cbn in Hrun. injection Hrun as <- <-.
    split; [apply kept_refl|]. cbn. by rewrite app_nil_r.
  - cbn [validation_loop] in Hrun.
    apply bind_ok in Hrun as ([] & w1 & Hd1 & Hrun).
    apply dispatch_kept in Hd1.
    apply bind_ok in Hrun as (res & w2 & Hfwd & Hrun).
    apply model_call_ok in Hfwd as [Hfwd Hk2].
    pose proof (kept_trans _ _ _ Hd1 Hk2) as Hk12.
    pose proof Hk12 as (Hc & _ & _ & _).
    pose proof Hd1 as (_ & Hm & _ & _).
    rewrite Hm in Hfwd.
    unfold bind at 1, gets at 1 in Hrun. rewrite Hc, Hens in Hrun.
    apply bind_ok in Hrun as ([[res' bn'] bls'] & w3 & Hpred & Hrun).
    apply bind_ok in Hpred as (q & w3' & Hpred & Hret).
    apply ensemble_pred_ok in Hpred as ->.
    injection Hret as <- <- <- <-.
    apply bind_ok in Hrun as (vbl & w4 & Hloss & Hrun).
    apply call_ok in Hloss as [_ ->].
    unfold bind at 1, gets at 1 in Hrun.
    apply bind_ok in Hrun as ([] & w5 & Hd2 & Hrun).
    apply dispatch_kept in Hd2.
    pose proof (kept_trans _ _ _ Hk12 Hd2) as Hk5.
    pose proof Hk5 as (Hc5 & Hm5 & _ & _).
    apply IH in Hrun as (Hk & Hr & Hlen); [|by rewrite Hc5].
    rewrite Hm5 in Hr, Hlen.
    split; [by eapply kept_trans|].
    cbn [raw_predictions omap list_omap]. rewrite Hfwd.
    fold (raw_predictions L (model_state_dict (_model (tr w))) batches).
    split.
    + rewrite Hr. by rewrite <- app_assoc.
    + cbn [length]. by rewrite Hlen.
Qed.

End History.

(** C6, as amended.  In ensemble mode a completed validation pass appends
    to the history one entry, the raw (unsmoothed) predictions of the
    validation batches in order; all earlier entries stay, whatever the value
    of [remember]. *)
Theorem C6_history_append
    {Batch Result ModelBlob OptBlob Grad HookBlob : Type}
    (L : Learner Batch Result ModelBlob OptBlob Grad)
    (w w' : World Batch Result ModelBlob OptBlob Grad HookBlob)
    (el : list (list Qc)) :
  ensembleModel (config (tr w)) = true →
  epoch_losses (tr w) = Some el →
  validation L w = Ok tt w' →
  let raw := raw_predictions L (model_state_dict (_model (tr w)))
               (validation_loader (config (tr w))) in
  epoch_losses (tr w') = Some (el ++ [raw]) ∧
  length raw = length (validation_loader (config (tr w))).
Proof.
  intros Hens Hel Hrun raw.
  unfold validation in Hrun.
  apply bind_ok in Hrun as ([] & w1 & Hd1 & Hrun).
  apply dispatch_kept in Hd1. pose proof Hd1 as (Hc1 & Hm1 & _ & He1).
  unfold bind at 1, gets at 1 in Hrun.
  apply bind_ok in Hrun as ([[val_loss n_val] bls] & w2 & Hloop & Hrun).
  apply validation_loop_ok in Hloop as (Hk2 & Hbls & Hlen);
    [|by rewrite Hc1].
  cbn [snd app] in Hbls. rewrite Hc1, Hm1 in Hbls, Hlen.
  fold raw in Hbls, Hlen. subst bls.
  pose proof (kept_trans _ _ _ Hd1 Hk2) as Hk12.
  unfold bind at 1, gets at 1 in Hrun.
  apply bind_ok in Hrun as (vl & w3 & Hdiv & Hrun).
  assert (w3 = w2) as ->.
  { destruct (loss_is_normalized (config (tr w2))); [|by injection Hdiv].
    case_bool_decide; [done|]. by injection Hdiv. }
  unfold bind at 1, gets at 1 in Hrun.
  pose proof Hk12 as (Hc2 & _ & _ & He2).
  rewrite Hc2, Hens in Hrun.
  apply bind_ok in Hrun as ([] & w4 & Hsel & Hrun).
  apply select_ensemble_kept in Hsel.
  apply bind_ok in Hrun as ([] & w5 & Hd5 & Hrun).
  apply dispatch_kept in Hd5.
  pose proof (kept_trans _ _ _ Hk12 (kept_trans _ _ _ Hsel Hd5)) as Hk5.
  pose proof Hk5 as (_ & _ & _ & He5).
  unfold when, append_epoch_losses in Hrun.
  cbv beta iota delta [bind gets modify raise] in Hrun.
  rewrite He5, Hel in Hrun. injection Hrun as <-.
  split; [reflexivity|done].
Qed.

Lemma C6_history_append_witness :
  let w := Toy.C6_start in
  let raw := raw_predictions Toy.learner (model_state_dict (_model (tr w)))
               (validation_loader (config (tr w))) in
  epoch_losses (tr (final (validation Toy.learner w)))
  = Some ([[Qc_of_Z 2]; [Qc_of_Z 4]] ++ [raw]) ∧
  length raw = length (validation_loader (config (tr w))).
Proof.
  apply (C6_history_append Toy.learner Toy.C6_start
           (final (validation Toy.learner Toy.C6_start))
           [[Qc_of_Z 2]; [Qc_of_Z 4]]);
    vm_compute; reflexivity.
Defined.

(** C6 as stated fails: with [remember = 1] the history holds two entries
    after two epochs; nothing is ever dropped. *)
Lemma C6_counterexample :
  let w' := final (train Toy.learner 2 Toy.C6_fresh) in
  raised (train Toy.learner 2 Toy.C6_fresh) = None ∧
  remember (config (tr w')) = 1 ∧
  length <$> epoch_losses (tr w') = Some 2%nat ∧
  ¬ (Z.of_nat 2 ≤ remember (config (tr w'))).
Proof. vm_compute. split_and!; try reflexivity. intros H. by apply H. Qed.
(** ** Resuming from a checkpoint *)

(** The constructor path over an existing checkpoint directory never
    assigns [epoch_losses]. *)
Lemma restore_leaves_epoch_losses
    {Batch Result ModelBlob OptBlob Grad HookBlob : Type}
    (w w' : World Batch Result ModelBlob OptBlob Grad HookBlob) e :
  restore_checkpoint e w = Ok tt w' →
  epoch_losses (tr w') = epoch_losses (tr w).
Proof.
  unfold restore_checkpoint. intros Hrun.
  apply bind_ok in Hrun as (e' & w1 & He & Hrun).
  assert (w1 = w) as ->.
  { destruct e as [e|]; [by injection He|].
    unfold os_listdir, py_max in He.
    cbv beta iota delta [bind get_disk ret raise] in He.
    destruct (checkpoints (disk w)) as [dir|]; [|done].
    destruct ((map_to_list dir).*1); [done|]. by injection He. }
  apply bind_ok in Hrun as (sd & w2 & Hload & Hrun).
  assert (w2 = w) as ->.
  { unfold torch_load in Hload.
    cbv beta iota delta [bind get_disk ret raise] in Hload.
    destruct (checkpoints (disk w)) as [dir|]; [|done].
    destruct (dir !! e'); [|done]. by injection Hload. }
  injection Hrun as <-. cbn [tr].
  unfold set_state_dict, _load_model_state_dict.
  by destruct (_check_is_parallel _).
Qed.

(** C2, at a concrete input in ensemble mode.  The uninterrupted run of two
    epochs returns, with two entries in the prediction history.  The run of
    one epoch returns as well and leaves its final checkpoint.  The trainer
    built over that checkpoint has the epoch, step and best losses of the
    checkpoint, but its hook is back in its initial state and
    [epoch_losses] is not assigned; continuing for one epoch raises
    AttributeError in the validation pass of epoch 2. *)
Theorem C2_resume_fails_in_ensemble_mode :
  raised Toy.C2_uninterrupted = None ∧
  epoch (tr (final Toy.C2_uninterrupted)) = 2%nat ∧
  step (tr (final Toy.C2_uninterrupted)) = 4%nat ∧
  length <$> epoch_losses (tr (final Toy.C2_uninterrupted)) = Some 2%nat ∧
  raised Toy.C2_first = None ∧
  hook_state <$> hooks (tr (final Toy.C2_first)) = [13%nat] ∧
  raised Toy.C2_reinit = None ∧
  epoch (tr (final Toy.C2_reinit)) = 1%nat ∧
  step (tr (final Toy.C2_reinit)) = 2%nat ∧
  best_losses (tr (final Toy.C2_reinit))
  = best_losses (tr (final Toy.C2_first)) ∧
  hook_state <$> hooks (tr (final Toy.C2_reinit)) = [0%nat] ∧
  epoch_losses (tr (final Toy.C2_reinit)) = None ∧
  raised Toy.C2_resumed = Some AttributeError.
Proof. vm_compute. split_and!; reflexivity. Qed.

(** In single-best mode the periodic checkpoint of an epoch is written
    before the validation pass of that epoch.  A run interrupted right after
    that write and resumed reaches the same epoch and step as the
    uninterrupted run but ends with another best loss: the validation result
    of the interrupted epoch is lost. *)
Example resume_after_periodic_checkpoint :
  raised Toy.single_interrupted = Some (BaseExc 0) ∧
  last (trace (final Toy.single_interrupted))
  = Some (EvHook 0 on_validation_begin) ∧
  epoch (tr (final Toy.single_resumed)) = 2%nat ∧
  epoch (tr (final Toy.single_uninterrupted)) = 2%nat ∧
  step (tr (final Toy.single_resumed)) = 4%nat ∧
  step (tr (final Toy.single_uninterrupted)) = 4%nat ∧
  float_value (best_loss (tr (final Toy.single_resumed))) = Some 6%Q ∧
  float_value (best_loss (tr (final Toy.single_uninterrupted))) = Some 3%Q.
Proof. vm_compute. split_and!; reflexivity. Qed.
(** * Further properties of the code *)

(** ** Restoring a checkpoint *)

Lemma foldl_max_spec (l : list nat) : ∀ x,
  (x ≤ foldl Nat.max x l)%nat ∧
  Forall (λ y, y ≤ foldl Nat.max x l)%nat l ∧
  (foldl Nat.max x l = x ∨ foldl Nat.max x l ∈ l).
Proof.
  induction l as [|y l IH]; intros x; cbn [foldl].
  - split_and!; [lia|constructor|by left].
  - destruct (IH (Nat.max x y)) as (Hx & Hall & Hin).
    split_and!; [lia| |].
    + constructor; [lia|done].
    + destruct Hin as [->|Hin].
      * destruct (Nat.max_spec x y) as [[_ ->]|[_ ->]];
          [right; left|by left].
      * right. by right.
Qed.

Section Restore.
Context {Batch Result ModelBlob OptBlob Grad HookBlob : Type}.
Local Abbreviation World :=
  (World Batch Result ModelBlob OptBlob Grad HookBlob).
Local Abbreviation StateDict := (StateDict ModelBlob OptBlob HookBlob).
Implicit Types (w : World) (dir : gmap nat StateDict).

Lemma py_max_spec (l : list nat) w :
  l ≠ [] →
  ∃ m, py_max l w = Ok m w ∧ m ∈ l ∧ Forall (λ y, y ≤ m)%nat l.
Proof.
  destruct l as [|x l]; [done|]. intros _.
  destruct (foldl_max_spec l x) as (Hx & Hall & Hin).
  exists (foldl Nat.max x l). split_and!; [done| |by constructor].
  destruct Hin as [->|Hin]; [left|by right].
Qed.

Lemma restore_latest w dir :
  checkpoints (disk w) = Some dir →
  dir ≠ ∅ →
  ∃ e sd,
    dir !! e = Some sd ∧
    (∀ e', e' ∈ dom dir → e' ≤ e)%nat ∧
    restore_checkpoint None w
    = Ok tt (mkWorld (set_state_dict sd (tr w)) (disk w) (trace w)).
Proof.
  intros Hdir Hne.
  destruct (listdir_keys dir) as (_ & Hset & _).
  destruct (py_max_spec (map_to_list dir).*1 w) as (m & Hmax & Hin & Hall).
  { intros Hnil. apply fmap_nil_inv in Hnil.
    by apply map_to_list_empty_iff in Hnil. }
  assert (m ∈ dom dir) as Hm
    by (rewrite <- Hset; by apply elem_of_list_to_set).
  apply elem_of_dom in Hm as [sd Hsd].
  exists m, sd. split_and!; [done| |].
  - intros e' He'. rewrite <- Hset in He'.
    apply elem_of_list_to_set in He'.
    by eapply Forall_forall in Hall.
  - unfold restore_checkpoint, os_listdir, torch_load.
    cbv beta iota delta [bind get_disk ret]. rewrite Hdir.
    cbv beta iota delta [bind get_disk ret]. rewrite Hmax.
    cbv beta iota. rewrite Hdir, Hsd. reflexivity.
Qed.

End Restore.

(** X1.  [restore_checkpoint()] without an epoch, over a checkpoint
    directory that holds at least one checkpoint, loads the checkpoint with
    the highest epoch tag into the trainer; the files and the log are left
    as they were. *)
Theorem X1_restore_latest
    {Batch Result ModelBlob OptBlob Grad HookBlob : Type}
    (w : World Batch Result ModelBlob OptBlob Grad HookBlob)
    (dir : gmap nat (StateDict ModelBlob OptBlob HookBlob)) :
  checkpoints (disk w) = Some dir →
  dir ≠ ∅ →
  ∃ e sd,
    dir !! e = Some sd ∧
    (∀ e', e' ∈ dom dir → e' ≤ e)%nat ∧
    restore_checkpoint None w
    = Ok tt (mkWorld (set_state_dict sd (tr w)) (disk w) (trace w)).
Proof. apply restore_latest. Qed.

Lemma X1_restore_latest_witness :
  ∃ e sd,
    Toy.two_checkpoints !! e = Some sd ∧
    (∀ e', e' ∈ dom Toy.two_checkpoints → e' ≤ e)%nat ∧
    restore_checkpoint None Toy.X1_start
    = Ok tt (mkWorld (set_state_dict sd (tr Toy.X1_start))
               (disk Toy.X1_start) (trace Toy.X1_start)).
Proof.
  apply (X1_restore_latest Toy.X1_start Toy.two_checkpoints).
  - reflexivity.
  - apply (bool_decide_unpack _). vm_compute. exact I.
Defined.

(** X2.  How [restore_checkpoint] fails.  Without a checkpoint directory it
    raises FileNotFoundError; over a directory without checkpoint files and
    without an explicit epoch it raises ValueError (the [max] of an empty
    list); for an explicit epoch that has no file it raises
    FileNotFoundError.  In each case the trainer, the files and the log are
    untouched. *)
Theorem X2_restore_errors
    {Batch Result ModelBlob OptBlob Grad HookBlob : Type}
    (w : World Batch Result ModelBlob OptBlob Grad HookBlob) :
  (checkpoints (disk w) = None →
   ∀ epoch, restore_checkpoint epoch w = Raise FileNotFoundError w) ∧
  (checkpoints (disk w) = Some ∅ →
   restore_checkpoint None w = Raise ValueError w) ∧
  (∀ dir e, checkpoints (disk w) = Some dir → dir !! e = None →
            restore_checkpoint (Some e) w = Raise FileNotFoundError w).
Proof.
  split_and!.
  - intros Hdir [e|]; unfold restore_checkpoint, os_listdir, torch_load;
      cbv beta iota delta [bind get_disk ret raise]; by rewrite Hdir.
  - intros Hdir. unfold restore_checkpoint, os_listdir.
    cbv beta iota delta [bind get_disk ret raise]. rewrite Hdir.
    by rewrite map_to_list_empty.
  - intros dir e Hdir He. unfold restore_checkpoint, torch_load.
    cbv beta iota delta [bind get_disk ret raise]. by rewrite Hdir, He.
Qed.

(** ** What a store keeps *)

Section StoreKeeps.
Context {Batch Result ModelBlob OptBlob Grad HookBlob : Type}.
Local Abbreviation World :=
  (World Batch Result ModelBlob OptBlob Grad HookBlob).
Local Abbreviation Trainer :=
  (Trainer Batch Result ModelBlob OptBlob Grad HookBlob).
Local Abbreviation StateDict := (StateDict ModelBlob OptBlob HookBlob).
Implicit Types (w : World) (t : Trainer) (dir : gmap nat StateDict).


Lemma state_dict_set_state_dict sd t :
  state_dict (set_state_dict sd t)
  = mkStateDict (sd_epoch sd) (sd_step sd) (sd_best_loss sd)
      (sd_best_losses sd) (sd_optimizer sd) (hook_state <$> hooks t)
      (sd_model sd).
Proof.
  unfold state_dict. rewrite set_state_dict_keeps_hooks.
  destruct (set_state_dict_fields sd t) as (-> & -> & -> & -> & -> & ->).
  reflexivity.
Qed.

End StoreKeeps.



(** X4.  The two accessors of the [state_dict] property.  Assigning a
    trainer its own state dictionary changes nothing; and after any
    assignment the state dictionary read back is the one assigned, except
    for the hook states, which are those the hooks already had. *)
Theorem X4_state_dict_accessors
    {Batch Result ModelBlob OptBlob Grad HookBlob : Type}
    (t : Trainer Batch Result ModelBlob OptBlob Grad HookBlob)
    (sd : StateDict ModelBlob OptBlob HookBlob) :
  set_state_dict (state_dict t) t = t ∧
  state_dict (set_state_dict sd t)
  = mkStateDict (sd_epoch sd) (sd_step sd) (sd_best_loss sd)
      (sd_best_losses sd) (sd_optimizer sd) (hook_state <$> hooks t)
      (sd_model sd) ∧
  _check_is_parallel (set_state_dict sd t) = _check_is_parallel t.
Proof.
  split_and!.
  - destruct t as [cfg hs m stop opt g e el st bl bls].
    unfold set_state_dict, _load_model_state_dict, _check_is_parallel,
      state_dict.
    destruct m; cbn; by rewrite assign_states_own.
  - apply state_dict_set_state_dict.
  - destruct t as [cfg hs m stop opt g e el st bl bls].
    unfold set_state_dict, _load_model_state_dict, _check_is_parallel.
    by destruct m.
Qed.



(** ** Stores that prune nothing, and the constructor on a fresh directory *)

Section NoPrune.
Context {Batch Result ModelBlob OptBlob Grad HookBlob : Type}.
Local Abbreviation World :=
  (World Batch Result ModelBlob OptBlob Grad HookBlob).
Local Abbreviation StateDict := (StateDict ModelBlob OptBlob HookBlob).
Implicit Types (w : World) (dir : gmap nat StateDict).

Lemma store_checkpoint_no_prune w dir :
  checkpoints (disk w) = Some dir →
  keep_n_checkpoints (config (tr w)) = 0 ∨
  Z.of_nat (size (dom (<[epoch (tr w):=state_dict (tr w)]> dir)))
  ≤ keep_n_checkpoints (config (tr w)) →
  store_checkpoint w
  = Ok tt (mkWorld (tr w)
             (with_checkpoints (<[epoch (tr w):=state_dict (tr w)]> dir)
                (disk w))
             (trace w ++ [EvSave (epoch (tr w))])).
Proof.
  intros Hdir HK.
  destruct (store_checkpoint_ok w dir Hdir) as (dir' & Hrun & Hsub & Hd & _).
  cbv zeta in Hrun, Hd.
  set (dir1 := <[epoch (tr w):=state_dict (tr w)]> dir) in *.
  set (K := keep_n_checkpoints (config (tr w))) in *.
  set (m := if bool_decide (K < Z.of_nat (size (dom dir1)))
            then if decide (0 ≤ - K) then Z.to_nat (- K)
                 else Z.to_nat (Z.of_nat (size (dom dir1)) - K)
            else 0%nat) in *.
  assert (m = 0%nat) as Hm.
  { subst m. case_bool_decide; [|done].
    destruct HK as [->|HK]; [|lia]. by rewrite decide_True by lia. }
  rewrite Hm, take_0 in Hrun, Hd. cbn in Hrun.
  rewrite list_to_set_nil, difference_empty_L in Hd.
  assert (dir' = dir1) as ->
    by (apply subseteq_dom_eq; [done|by rewrite Hd]).
  exact Hrun.
Qed.

End NoPrune.

(** X7.  With [keep_n_checkpoints = 0] a store prunes nothing: the slice
    [sidx[:-0]] is empty, so the directory afterwards holds every file it
    held before and the one just written. *)
Theorem X7_keep_zero_prunes_nothing
    {Batch Result ModelBlob OptBlob Grad HookBlob : Type}
    (w : World Batch Result ModelBlob OptBlob Grad HookBlob)
    (dir : gmap nat (StateDict ModelBlob OptBlob HookBlob)) :
  checkpoints (disk w) = Some dir →
  keep_n_checkpoints (config (tr w)) = 0 →
  store_checkpoint w
  = Ok tt (mkWorld (tr w)
             (with_checkpoints (<[epoch (tr w):=state_dict (tr w)]> dir)
                (disk w))
             (trace w ++ [EvSave (epoch (tr w))])).
Proof. intros Hdir HK. apply store_checkpoint_no_prune; [done|by left]. Qed.

Lemma X7_keep_zero_prunes_nothing_witness :
  store_checkpoint Toy.X7_start
  = Ok tt (mkWorld (tr Toy.X7_start)
             (with_checkpoints
                (<[epoch (tr Toy.X7_start):=state_dict (tr Toy.X7_start)]>
                   Toy.two_checkpoints)
                (disk Toy.X7_start))
             (trace Toy.X7_start ++ [EvSave (epoch (tr Toy.X7_start))])).
Proof.
  apply (X7_keep_zero_prunes_nothing Toy.X7_start Toy.two_checkpoints);
    reflexivity.
Defined.

(** X5.  The constructor on a model directory without a checkpoint
    directory, for [keep_n_checkpoints ≥ 0]: it returns; the run state is
    the zero state (epoch 0, step 0, best loss infinite, no best losses, an
    empty prediction history, stop flag off); the checkpoint directory
    exists and holds exactly one file, the checkpoint of epoch 0 with that
    state; nothing else was written. *)
Theorem X5_fresh_constructor
    {Batch Result ModelBlob OptBlob Grad HookBlob : Type}
    (cfg : Config Batch) (model : model_obj ModelBlob) (opt : OptBlob)
    (g : Grad) (hks : list (HookObj Batch Result HookBlob))
    (d : Disk ModelBlob OptBlob HookBlob) :
  checkpoints d = None →
  0 ≤ keep_n_checkpoints cfg →
  let t0 := mkTrainer cfg hks model false opt g 0 (Some []) 0 PlusInf [] in
  Trainer_init cfg model opt g hks d
  = Ok tt (mkWorld t0
             (mkDisk (Some {[0%nat := state_dict t0]}) (best_models d))
             [EvSave 0]).
Proof.
  intros Hd HK t0. unfold Trainer_init, init_body, os_makedirs.
  cbv beta iota delta [bind get_disk put_disk modify]. cbn [disk].
  rewrite Hd. cbn [tr disk trace with_checkpoints best_models checkpoints].
  change (set_best_losses _ _) with t0.
  match goal with |- store_checkpoint ?w = _ => set (w0 := w) end.
  rewrite (store_checkpoint_no_prune w0 ∅).
  - subst w0. cbn [tr disk trace with_checkpoints best_models epoch t0 app].
    by rewrite insert_empty.
  - reflexivity.
  - subst w0. cbn [tr config epoch t0].
    rewrite insert_empty, dom_singleton_L, size_singleton.
    destruct (decide (keep_n_checkpoints cfg = 0)); [by left|right; lia].
Qed.

Lemma X5_fresh_constructor_witness :
  let t0 := mkTrainer (Toy.config true 3 2) [Toy.counting_hook 0]
              (Plain 0%nat) false 0%nat 0%nat 0 (Some []) 0 PlusInf [] in
  Trainer_init (Toy.config true 3 2) (Plain 0%nat) 0%nat 0%nat
    [Toy.counting_hook 0] Toy.no_files
  = Ok tt (mkWorld t0
             (mkDisk (Some {[0%nat := state_dict t0]})
                (best_models Toy.no_files))
             [EvSave 0]).
Proof.
  apply (X5_fresh_constructor (Toy.config true 3 2) (Plain 0%nat) 0%nat
           0%nat [Toy.counting_hook 0] Toy.no_files);
    [reflexivity|vm_compute; discriminate].
Defined.

(** X6.  The constructor on a fresh model directory with a negative
    [keep_n_checkpoints]: the slice [sidx[:-keep_n_checkpoints]] then
    selects the file just written, so the constructor returns with an
    existing but empty checkpoint directory, having written the checkpoint
    of epoch 0 and removed it again. *)
Theorem X6_negative_keep_fresh_constructor
    {Batch Result ModelBlob OptBlob Grad HookBlob : Type}
    (cfg : Config Batch) (model : model_obj ModelBlob) (opt : OptBlob)
    (g : Grad) (hks : list (HookObj Batch Result HookBlob))
    (d : Disk ModelBlob OptBlob HookBlob) :
  checkpoints d = None →
  keep_n_checkpoints cfg < 0 →
  let t0 := mkTrainer cfg hks model false opt g 0 (Some []) 0 PlusInf [] in
  Trainer_init cfg model opt g hks d
  = Ok tt (mkWorld t0 (mkDisk (Some ∅) (best_models d))
             [EvSave 0; EvRemove 0]).
Proof.
  intros Hd HK t0. unfold Trainer_init, init_body, os_makedirs.
  cbv beta iota delta [bind get_disk put_disk modify]. cbn [disk].
  rewrite Hd. cbn [tr disk trace with_checkpoints best_models checkpoints].
  change (set_best_losses _ _) with t0.
  match goal with |- store_checkpoint ?w = _ => set (w0 := w) end.
  destruct (store_checkpoint_ok w0 ∅ eq_refl) as (dir' & Hrun & _ & Hdom & HP).
  cbv zeta in Hrun, Hdom, HP.
  cbn [tr epoch config t0 w0] in Hrun, Hdom, HP.
  rewrite insert_empty in Hrun, Hdom, HP.
  rewrite map_to_list_singleton in HP. cbn [fmap list_fmap fst] in HP.
  apply Permutation_singleton_r in HP.
  rewrite map_to_list_singleton in Hrun, Hdom.
  cbn [fmap list_fmap fst] in Hrun, Hdom. rewrite HP in Hrun, Hdom.
  rewrite dom_singleton_L, size_singleton in Hrun, Hdom.
  rewrite bool_decide_eq_true_2, decide_True in Hrun, Hdom by lia.
  assert (take (Z.to_nat (- keep_n_checkpoints cfg)) [0%nat] = [0%nat]) as Htake.
  { destruct (Z.to_nat (- keep_n_checkpoints cfg)) eqn:Hn; [lia|].
    cbn. by rewrite take_nil. }
  rewrite Htake in Hrun, Hdom.
  assert (dir' = ∅) as ->.
  { apply dom_empty_inv_L. rewrite Hdom. set_solver. }
  rewrite Hrun. reflexivity.
Qed.

Lemma X6_negative_keep_fresh_constructor_witness :
  let t0 := mkTrainer (Toy.config true (-1) 2) [Toy.counting_hook 0]
              (Plain 0%nat) false 0%nat 0%nat 0 (Some []) 0 PlusInf [] in
  Trainer_init (Toy.config true (-1) 2) (Plain 0%nat) 0%nat 0%nat
    [Toy.counting_hook 0] Toy.no_files
  = Ok tt (mkWorld t0 (mkDisk (Some ∅) (best_models Toy.no_files))
             [EvSave 0; EvRemove 0]).
Proof.
  apply (X6_negative_keep_fresh_constructor (Toy.config true (-1) 2)
           (Plain 0%nat) 0%nat 0%nat [Toy.counting_hook 0] Toy.no_files);
    [reflexivity|vm_compute; reflexivity].
Defined.

(** ** Edge cases of [calc_pred] *)

Lemma mean_singleton (p : Qc) : mean [p] = p.
Proof.
  unfold mean. cbn [foldr length].
  rewrite Qcplus_0_r.
  replace (Qc_of_Z (Z.of_nat 1)) with 1%Qc
    by (apply Qc_is_canon; reflexivity).
  unfold Qcdiv. replace (/ 1)%Qc with 1%Qc
    by (apply Qc_is_canon; reflexivity).
  apply Qcmult_1_r.
Qed.

(** X9.  With [remember ≤ 1] [calc_pred] reads no history at all and
    returns the prediction it was given: a history depth of one disables the
    smoothing, whatever has been recorded. *)
Theorem X9_calc_pred_remember_one (prediction : Qc)
    (epoch_losses : list (list Qc)) (batch_num : nat) (remember : Z) :
  remember ≤ 1 →
  calc_pred prediction epoch_losses batch_num remember = inr prediction.
Proof.
  intros Hr. unfold calc_pred, calc_pred_preds, py_range_down.
  set (lene := Z.of_nat (length epoch_losses)).
  assert (Z.to_nat (lene - 1 -
            (if decide (lene < remember) then -1 else lene - remember))
          = 0%nat) as -> by (case_decide; lia).
  cbn. by rewrite mean_singleton.
Qed.

Lemma X9_calc_pred_remember_one_witness :
  calc_pred (Qc_of_Z 9) [[Qc_of_Z 3]; [Qc_of_Z 6]] 0 1 = inr (Qc_of_Z 9).
Proof.
  apply (X9_calc_pred_remember_one (Qc_of_Z 9) [[Qc_of_Z 3]; [Qc_of_Z 6]] 0 1).
  lia.
Defined.

(** X10.  With [remember ≥ 2] and a non-empty history, [calc_pred] raises
    IndexError when the most recent entry of the history has no prediction
    at the batch position asked for - that is, when a validation pass yields
    more batches than the pass before it. *)
Theorem X10_calc_pred_index_error (prediction : Qc)
    (older : list (list Qc)) (latest : list Qc) (batch_num : nat)
    (remember : Z) :
  2 ≤ remember →
  latest !! batch_num = None →
  calc_pred prediction (older ++ [latest]) batch_num remember
  = inl IndexError.
Proof.
  intros Hr Hnone. unfold calc_pred, calc_pred_preds, py_range_down.
  set (el := older ++ [latest]).
  set (lene := Z.of_nat (length el)).
  assert (lene = Z.of_nat (length older) + 1) as Hlene
    by (unfold lene, el; rewrite length_app; simpl; lia).
  destruct (Z.to_nat (lene - 1 -
              (if decide (lene < remember) then -1 else lene - remember)))
    as [|k] eqn:Hn.
  { case_decide; lia. }
  cbn [seq fmap list_fmap history_at].
  replace (lene - 1 - Z.of_nat 0) with (Z.of_nat (length older)) by lia.
  rewrite py_getitem_nat. unfold el.
  rewrite lookup_app_r by lia. rewrite Nat.sub_diag. cbn [lookup list_lookup].
  by rewrite py_getitem_nat, Hnone.
Qed.

Lemma X10_calc_pred_index_error_witness :
  calc_pred (Qc_of_Z 9) ([[Qc_of_Z 3; Qc_of_Z 4]] ++ [[Qc_of_Z 6]]) 1 2
  = inl IndexError.
Proof.
  apply (X10_calc_pred_index_error (Qc_of_Z 9) [[Qc_of_Z 3; Qc_of_Z 4]]
           [Qc_of_Z 6] 1 2).
  - lia.
  - reflexivity.
Defined.

(** ** The validation loss *)

Section ValidationLoss.
Context {Batch Result ModelBlob OptBlob Grad HookBlob : Type}.
Context (L : Learner Batch Result ModelBlob OptBlob Grad).
Local Abbreviation World :=
  (World Batch Result ModelBlob OptBlob Grad HookBlob).
Implicit Types (w : World).




End ValidationLoss.



(** Batches of sizes 4 and 6 with losses 1 and 2: the normalized validation
    loss is (1*4 + 2*6)/10 = 8/5, the unnormalized one is 3. *)
Example validation_loss_4_6 :
  float_value
    (best_loss (tr (final (validation Toy.sized_learner
                             (Toy.sized_start true)))))
  = Some (8 # 5)%Q ∧
  float_value
    (best_loss (tr (final (validation Toy.sized_learner
                             (Toy.sized_start false)))))
  = Some 3%Q.
Proof. vm_compute. split; reflexivity. Qed.

(** X11.  With [loss_is_normalized] and a validation loader that yields no
    batch, a validation pass raises ZeroDivisionError right after its
    [on_validation_begin] calls: the total of zero is divided by the zero
    examples seen. *)
Theorem X11_empty_validation_loader
    {Batch Result ModelBlob OptBlob Grad HookBlob : Type}
    (L : Learner Batch Result ModelBlob OptBlob Grad)
    (w w1 : World Batch Result ModelBlob OptBlob Grad HookBlob) :
  validation_loader (config (tr w)) = [] →
  loss_is_normalized (config (tr w)) = true →
  dispatch on_validation_begin no_args w = Ok tt w1 →
  validation L w = Raise ZeroDivisionError w1 ∧
  trace w1
  = trace w ++ hook_events on_validation_begin 0 (length (hooks (tr w))).
Proof.
  intros Hvl Hnorm Hd.
  destruct (dispatch_ok _ _ _ _ Hd) as (hs & stop & _ & Hw1).
  split; [|by subst w1].
  unfold validation. unfold bind at 1. rewrite Hd.
  unfold bind at 1, gets at 1.
  assert (config (tr w1) = config (tr w)) as Hc by (by subst w1).
  rewrite Hc, Hvl. cbn [validation_loop]. unfold bind at 1, ret at 1.
  unfold bind at 1, gets at 1. rewrite Hc, Hnorm. reflexivity.
Qed.

Lemma X11_empty_validation_loader_witness :
  validation Toy.learner Toy.X11_start
  = Raise ZeroDivisionError
      (final (dispatch on_validation_begin no_args Toy.X11_start)) ∧
  trace (final (dispatch on_validation_begin no_args Toy.X11_start))
  = trace Toy.X11_start ++
    hook_events on_validation_begin 0 (length (hooks (tr Toy.X11_start))).
Proof.
  apply (X11_empty_validation_loader Toy.learner Toy.X11_start
           (final (dispatch on_validation_begin no_args Toy.X11_start)));
    vm_compute; reflexivity.
Defined.

(** ** The best loss over a run of validations *)

Section BestLoss.
Context {Batch Result ModelBlob OptBlob Grad HookBlob : Type}.
Local Abbreviation World :=
  (World Batch Result ModelBlob OptBlob Grad HookBlob).
Implicit Types (w : World).

Lemma float_gt_trans (x : pyfloat) (v y : Qc) :
  float_gt x y = false → float_gt (if float_gt x v then Finite v else x) y = false.
Proof.
  destruct x as [q|]; cbn; [|done].
  intros Hy. apply bool_decide_eq_false in Hy.
  case_bool_decide as Hv; cbn; [|by apply bool_decide_eq_false].
  apply bool_decide_eq_false. intros Hlt. apply Hy.
  by apply Qclt_trans with v.
Qed.

Lemma Qclt_irrefl (x : Qc) : ¬ (x < x)%Qc.
Proof. intros H. by apply Qclt_not_eq in H. Qed.

Lemma select_single_ok v w :
  ∃ w', select_single v w = Ok tt w' ∧
        best_loss (tr w')
        = if float_gt (best_loss (tr w)) v then Finite v
          else best_loss (tr w).
Proof.
  unfold select_single, save_best.
  cbv beta iota delta [bind gets modify get_disk put_disk emit ret].
  destruct (float_gt (best_loss (tr w)) v); by eexists.
Qed.

End BestLoss.

(** X13.  Over any sequence of validation losses the single-best policy
    always returns, and the best loss it ends with is a running minimum: it
    exceeds none of the losses seen, it is either the best loss it started
    with or one of the losses seen, and it stays below every bound the
    starting value was below. *)
Theorem X13_best_loss_running_minimum
    {Batch Result ModelBlob OptBlob Grad HookBlob : Type}
    (vs : list Qc) (w : World Batch Result ModelBlob OptBlob Grad HookBlob) :
  ∃ w',
    select_single_all vs w = Ok tt w' ∧
    Forall (λ v, float_gt (best_loss (tr w')) v = false) vs ∧
    (best_loss (tr w') = best_loss (tr w) ∨
     ∃ v, v ∈ vs ∧ best_loss (tr w') = Finite v) ∧
    (∀ y, float_gt (best_loss (tr w)) y = false →
          float_gt (best_loss (tr w')) y = false).
Proof.
  revert w. induction vs as [|v vs IH]; intros w.
  - exists w. split_and!; [done|constructor|by left|done].
  - destruct (select_single_ok v w) as (w1 & Hrun1 & Hb1).
    destruct (IH w1) as (w' & Hrun & Hall & Hin & Hmono).
    exists w'. split_and!.
    + cbn [select_single_all]. unfold bind. by rewrite Hrun1.
    + constructor; [|done]. apply Hmono. rewrite Hb1.
      destruct (best_loss (tr w)) as [q|]; cbn.
      * case_bool_decide as Hv; cbn; apply bool_decide_eq_false;
          [apply Qclt_irrefl|done].
      * apply bool_decide_eq_false, Qclt_irrefl.
    + destruct Hin as [Heq|(v' & Hv' & Heq)].
      * rewrite Heq, Hb1. destruct (float_gt (best_loss (tr w)) v).
        -- right. exists v. split; [constructor|done].
        -- by left.
      * right. exists v'. split; [by constructor|done].
    + intros y Hy. apply Hmono. rewrite Hb1. by apply float_gt_trans.
Qed.

(** ** Runs that no hook, model or loss interferes with *)

Section Progress.
Context {Batch Result ModelBlob OptBlob Grad HookBlob : Type}.
Context (L : Learner Batch Result ModelBlob OptBlob Grad).
Local Abbreviation World :=
  (World Batch Result ModelBlob OptBlob Grad HookBlob).
Implicit Types (w : World).

Lemma moved_refl w : moved 0 0 w w.
Proof. unfold moved. rewrite !Nat.add_0_r. by split_and!. Qed.

Lemma moved_trans a b c d w w1 w2 :
  moved a b w w1 → moved c d w1 w2 → moved (a + c) (b + d) w w2.
Proof.
  intros (Hc1 & Hh1 & Hs1 & He1 & Hp1 & Hd1) (Hc2 & Hh2 & Hs2 & He2 & Hp2 & Hd2).
  unfold moved. rewrite Hc2, Hh2, Hs2, He2, Hp2, Hc1, Hh1, Hs1, He1, Hp1.
  split_and!; [done..|lia|lia|auto].
Qed.

Lemma returns_seq {X Y} (m : M World X) (k : X → M World Y) a b c d w
    (Q : Y → World → Prop) :
  returns m w (λ _ w1, moved a b w w1) →
  (∀ x w1, moved a b w w1 →
           returns (k x) w1 (λ y w2, moved c d w1 w2 ∧ Q y w2)) →
  returns (bind m k) w (λ y w2, moved (a + c) (b + d) w w2 ∧ Q y w2).
Proof.
  intros Hm Hk. apply returns_bind. eapply returns_weaken; [exact Hm|].
  intros x w1 Hw1. cbn beta in Hw1 |- *.
  eapply returns_weaken; [apply Hk; exact Hw1|].
  intros y w2 [Hw2 HQ]. split; [by eapply moved_trans|done].
Qed.

Lemma dispatch_moved c a w :
  Forall quiet (hook_cb <$> hooks (tr w)) →
  returns (dispatch c a) w (λ _ w', moved 0 0 w w' ∧ disk w' = disk w).
Proof.
  intros Hq. apply returns_dispatch_quiet; [done|]. intros hs Hcb.
  unfold moved. wsimpl. rewrite !Nat.add_0_r. by split_and!.
Qed.

(** The batch loop touches neither the configuration, nor the files, nor the
    epoch counter. *)
Lemma batch_loop_frame len (rest : list Batch) :
  ∀ i s ls w w',
  batch_loop L len rest i s ls w = Ok tt w' →
  config (tr w') = config (tr w) ∧ disk w' = disk w ∧
  epoch (tr w') = epoch (tr w).
Proof.
  induction rest as [|b rest IH]; intros i s ls w w' Hrun.
  - cbn in Hrun. by injection Hrun as <-.
  - cbn [batch_loop] in Hrun.
    apply bind_ok in Hrun as ([] & w1 & Hd1 & Hrun).
    destruct (dispatch_ok _ _ _ _ Hd1) as (hs1 & st1 & _ & ->).
    apply bind_ok in Hrun as (r & w2 & Hfwd & Hrun).
    assert (config (tr w2) = config (tr w) ∧ disk w2 = disk w ∧
            epoch (tr w2) = epoch (tr w)) as (Hc2 & Hd2 & He2).
    { unfold model_call in Hfwd. cbv beta iota delta [bind gets emit] in Hfwd.
      destruct (forward L true _ b) as [e|r']; cbn in Hfwd; [done|].
      by injection Hfwd as _ <-. }
    apply bind_ok in Hrun as (l & w3 & Hl & Hrun).
    apply call_ok in Hl as [_ ->].
    unfold bind at 1, gets at 1 in Hrun.
    apply bind_ok in Hrun as ([] & w4 & Hb & Hrun).
    unfold loss_backward in Hb. cbv beta iota delta [bind emit modify] in Hb.
    injection Hb as <-.
    destruct (_ || _).
    + apply bind_ok in Hrun as ([] & w5 & Ho & Hrun).
      unfold do_optimizer_step in Ho.
      cbv beta iota delta [bind emit modify] in Ho. injection Ho as <-.
      apply bind_ok in Hrun as ([] & w6 & Hm & Hrun).
      unfold modify in Hm. injection Hm as <-.
      apply bind_ok in Hrun as ([] & w7 & Hd7 & Hrun).
      destruct (dispatch_ok _ _ _ _ Hd7) as (hs7 & st7 & _ & ->).
      unfold bind at 1, gets at 1 in Hrun.
      destruct (_stop _).
      * injection Hrun as <-. wsimpl. rewrite load_model_set_model. wsimpl.
        done.
      * apply bind_ok in Hrun as ([] & w8 & Hz & Hrun).
        unfold do_zero_grad in Hz.
        cbv beta iota delta [bind emit modify] in Hz. injection Hz as <-.
        apply IH in Hrun as (-> & -> & ->). wsimpl.
        rewrite load_model_set_model. wsimpl. done.
    + apply IH in Hrun as (-> & -> & ->). by wsimpl.
Qed.

(** One epoch's batch loop. *)
Lemma batch_loop_moved (A : nat) w :
  n_acc_steps (config (tr w)) = Z.of_nat A → (1 ≤ A)%nat →
  total_learner L →
  Forall quiet (hook_cb <$> hooks (tr w)) →
  _stop (tr w) = false →
  let tl := train_loader (config (tr w)) in
  returns (batch_loop L (length tl) tl 0 0 0%Qc) w
    (λ _ w', moved 0 (windows A (length tl)) w w' ∧ disk w' = disk w).
Proof.
  intros HA HA1 Htot Hq Hstop tl.
  destruct (batch_loop_spec L A (length tl) tl 0 0%Qc w)
    as ([] & w' & Hrun & Hadv); [done..|].
  rewrite Nat.Div0.mod_0_l in Hrun.
  destruct Hadv as (_ & Hh & Hs & _ & Hstep).
  rewrite (due_count A _ HA1) in Hstep.
  destruct (batch_loop_frame _ _ _ _ _ _ _ Hrun) as (Hc & Hd & He).
  exists tt, w'. split; [done|]. split; [|done].
  unfold moved. rewrite Hd, Nat.add_0_r. by split_and!.
Qed.

(** Outside ensemble mode the loop over the validation batches returns, and
    has counted at least one example per batch. *)
Lemma validation_loop_moved (batches : list Batch) :
  ∀ vl nv bn bls w,
  total_learner L →
  Forall quiet (hook_cb <$> hooks (tr w)) →
  ensembleModel (config (tr w)) = false →
  returns (validation_loop L batches vl nv bn bls) w
    (λ r w', moved 0 0 w w' ∧ disk w' = disk w ∧
             (nv + length batches ≤ r.1.2)%nat).
Proof.
  induction batches as [|b batches IH]; intros vl nv bn bls w Htot Hq Hens.
  - apply returns_ret. cbn. split_and!; [apply moved_refl|done|lia].
  - cbn [validation_loop].
    apply returns_bind, returns_dispatch_quiet; [done|]. intros hs1 Hcb1.
    apply returns_bind, returns_model_call; [done|]. intros r. wsimpl.
    apply returns_bind, returns_gets. wsimpl. rewrite Hens.
    apply returns_bind, returns_ret.
    apply returns_bind, returns_loss; [done|]. intros l.
    apply returns_bind, returns_gets. wsimpl.
    apply returns_bind, returns_dispatch_quiet.
    { wsimpl. by rewrite Hcb1. }
    intros hs2 Hcb2. wsimpl in Hcb2. wsimpl.
    eapply returns_weaken.
    { apply IH; [done|wsimpl; by rewrite Hcb2, Hcb1|by wsimpl]. }
    intros r' w' (Hmv & Hd & Hn). wsimpl in Hd. split_and!; [|done|].
    + destruct Hmv as (Hc & Hh & Hs & He & Hp & Hdir).
      wsimpl in Hc. wsimpl in Hh. wsimpl in Hs. wsimpl in He. wsimpl in Hp.
      wsimpl in Hdir.
      unfold moved. rewrite Hc, Hh, Hs, He, Hp, Hcb2, Hcb1.
      by split_and!.
    + cbn [length]. pose proof (Pos2Nat.is_pos (batch_size L b)). lia.
Qed.

(** A validation pass outside ensemble mode. *)
Lemma validation_moved w :
  total_learner L →
  Forall quiet (hook_cb <$> hooks (tr w)) →
  ensembleModel (config (tr w)) = false →
  (loss_is_normalized (config (tr w)) = true →
   validation_loader (config (tr w)) ≠ []) →
  returns (validation L) w (λ _ w', moved 0 0 w w').
Proof.
  intros Htot Hq Hens Hne. unfold validation.
  apply returns_bind, returns_dispatch_quiet; [done|]. intros hs1 Hcb1.
  apply returns_bind, returns_gets. wsimpl.
  apply returns_bind. eapply returns_weaken.
  { apply validation_loop_moved; [done|wsimpl; by rewrite Hcb1|by wsimpl]. }
  intros [[vl nv] bls] w2 (Hmv & Hd & Hn). cbn [fst snd] in Hn.
  pose proof Hmv as (Hc & Hh & Hs & He & Hp & Hdir).
  wsimpl in Hc. wsimpl in Hh. wsimpl in Hs. wsimpl in He. wsimpl in Hp.
  wsimpl in Hdir. wsimpl in Hd.
  apply returns_bind, returns_gets. rewrite Hc.
  assert (∃ v, (if loss_is_normalized (config (tr w))
                then if bool_decide (nv = 0%nat) then raise ZeroDivisionError
                     else ret (vl / Qc_of_Z (Z.of_nat nv))%Qc
                else ret vl) w2 = Ok v w2) as [v Hv].
  { destruct (loss_is_normalized (config (tr w))) eqn:Hnorm; [|by eexists].
    rewrite bool_decide_eq_false_2; [by eexists|].
    specialize (Hne eq_refl).
    destruct (validation_loader (config (tr w))); [done|]. cbn in Hn. lia. }
  apply returns_bind. exists v, w2. split; [exact Hv|].
  apply returns_bind, returns_gets. rewrite Hc, Hens.
  destruct (select_single_ok v w2) as (w3 & Hsel & _).
  assert (moved 0 0 w2 w3) as Hmv3.
  { revert Hsel. unfold select_single, save_best.
    cbv beta iota delta [bind gets modify get_disk put_disk emit ret].
    destruct (float_gt (best_loss (tr w2)) v); intros [= <-];
      [|apply moved_refl].
    unfold moved. wsimpl. rewrite !Nat.add_0_r. by split_and!. }
  apply returns_bind. exists tt, w3. split; [exact Hsel|].
  pose proof Hmv3 as (Hc3 & Hh3 & Hs3 & He3 & Hp3 & Hdir3).
  apply returns_bind, returns_dispatch_quiet.
  { by rewrite Hh3, Hh, Hcb1. }
  intros hs4 Hcb4. apply returns_ret.
  unfold moved. wsimpl. rewrite Hc3, Hc, Hcb4, Hh3, Hh, Hcb1, Hs3, Hs.
  rewrite He3, He, Hp3, Hp, !Nat.add_0_r.
  split_and!; [done..|]. intros Hsome. by apply Hdir3, Hdir.
Qed.

(** Writing a checkpoint into an existing directory. *)
Lemma store_checkpoint_moved w :
  is_Some (checkpoints (disk w)) →
  returns store_checkpoint w (λ _ w', moved 0 0 w w').
Proof.
  intros [dir Hdir].
  destruct (store_checkpoint_ok w dir Hdir) as (dir' & Hrun & _).
  eexists _, _. split; [exact Hrun|].
  unfold moved. cbn [tr disk checkpoints with_checkpoints].
  rewrite !Nat.add_0_r. by split_and!.
Qed.

Lemma moved_step a b w w1 w2 :
  moved a b w w1 → moved 0 0 w1 w2 → moved a b w w2.
Proof.
  intros H1 H2. pose proof (moved_trans _ _ _ _ _ _ _ H1 H2) as H.
  by rewrite !Nat.add_0_r in H.
Qed.

Lemma when_moved c (m : M World unit) w :
  returns m w (λ _ w', moved 0 0 w w') →
  returns (when c m) w (λ _ w', moved 0 0 w w').
Proof.
  intros Hm. destruct c; [done|]. apply returns_ret, moved_refl.
Qed.

(** The batch loop and what follows it in an epoch, when neither interval
    is zero. *)
Lemma epoch_body_moved (A : nat) w :
  total_learner L →
  Forall quiet (hook_cb <$> hooks (tr w)) →
  n_acc_steps (config (tr w)) = Z.of_nat A → (1 ≤ A)%nat →
  checkpoint_interval (config (tr w)) ≠ 0 →
  validation_interval (config (tr w)) ≠ 0 →
  ensembleModel (config (tr w)) = false →
  (loss_is_normalized (config (tr w)) = true →
   validation_loader (config (tr w)) ≠ []) →
  is_Some (checkpoints (disk w)) →
  _stop (tr w) = false →
  returns (epoch_body L) w
    (λ _ w', moved 0 (windows A (length (train_loader (config (tr w))))) w w').
Proof.
  intros Htot Hq HA HA1 Hci Hvi Hens Hne Hdir Hstop.
  unfold epoch_body, do_zero_grad.
  apply returns_bind, returns_bind, returns_emit, returns_modify.
  match goal with
  | |- returns _ ?w1 _ => set (w0 := w1)
  end.
  apply returns_bind, returns_gets.
  apply returns_bind. eapply returns_weaken.
  { by apply (batch_loop_moved A w0). }
  intros [] w1 [Hmv1 _].
  change (moved 0 (windows A (length (train_loader (config (tr w))))) w w1)
    in Hmv1.
  pose proof Hmv1 as (Hc1 & Hh1 & Hs1 & _ & _ & Hdir1).
  apply returns_bind, returns_gets. apply returns_bind, returns_gets.
  rewrite Hc1. unfold py_mod_is_zero at 1. rewrite decide_False by done.
  apply returns_bind, returns_ret.
  apply returns_bind. eapply returns_weaken.
  { apply when_moved, store_checkpoint_moved. by apply Hdir1. }
  intros [] w2 Hmv2. cbn beta in Hmv2.
  pose proof (moved_step _ _ _ _ _ Hmv1 Hmv2) as Hw2. clear Hmv2.
  pose proof Hw2 as (Hc2 & Hh2 & Hs2 & _ & _ & Hdir2).
  apply returns_bind, returns_gets. apply returns_bind, returns_gets.
  rewrite Hc2. unfold py_mod_is_zero. rewrite decide_False by done.
  apply returns_bind, returns_ret. apply returns_bind, returns_gets.
  apply returns_bind. eapply returns_weaken.
  { apply when_moved, validation_moved;
      [done|by rewrite Hh2|by rewrite Hc2|by rewrite Hc2]. }
  intros [] w3 Hmv3. cbn beta in Hmv3.
  pose proof (moved_step _ _ _ _ _ Hw2 Hmv3) as Hw3. clear Hmv3.
  pose proof Hw3 as (_ & Hh3 & _).
  eapply returns_weaken; [apply dispatch_moved; by rewrite Hh3|].
  intros [] w4 [Hmv4 _]. by eapply moved_step.
Qed.

(** [n] epochs in a row. *)
Lemma epoch_loop_moved (A n : nat) : ∀ w,
  total_learner L →
  Forall quiet (hook_cb <$> hooks (tr w)) →
  n_acc_steps (config (tr w)) = Z.of_nat A → (1 ≤ A)%nat →
  checkpoint_interval (config (tr w)) ≠ 0 →
  validation_interval (config (tr w)) ≠ 0 →
  ensembleModel (config (tr w)) = false →
  (loss_is_normalized (config (tr w)) = true →
   validation_loader (config (tr w)) ≠ []) →
  is_Some (checkpoints (disk w)) →
  _stop (tr w) = false →
  returns (epoch_loop L n) w
    (λ _ w',
       moved n (n * windows A (length (train_loader (config (tr w))))) w w').
Proof.
  induction n as [|n IH];
    intros w Htot Hq HA HA1 Hci Hvi Hens Hne Hdir Hstop.
  - apply returns_ret, moved_refl.
  - cbn [epoch_loop].
    apply returns_bind, returns_modify.
    apply returns_bind. eapply returns_weaken; [by apply dispatch_moved|].
    intros [] w1 [Hmv1 _].
    assert (moved 1 0 w w1) as Hw1.
    { destruct Hmv1 as (Hc & Hh & Hs & He & Hp & Hd).
      wsimpl in Hc. wsimpl in Hh. wsimpl in Hs. wsimpl in He. wsimpl in Hp.
      cbn [disk] in Hd. unfold moved. split_and!; [done..|lia|lia|done]. }
    clear Hmv1. pose proof Hw1 as (Hc1 & Hh1 & Hs1 & _ & _ & Hdir1).
    apply returns_bind, returns_gets. rewrite Hs1, Hstop.
    apply returns_bind. eapply returns_weaken.
    { apply (epoch_body_moved A); rewrite ?Hc1, ?Hh1, ?Hs1; auto. }
    intros [] w2 Hmv2. cbn beta in Hmv2. rewrite Hc1 in Hmv2.
    pose proof (moved_trans _ _ _ _ _ _ _ Hw1 Hmv2) as Hw2. clear Hmv2.
    pose proof Hw2 as (Hc2 & Hh2 & Hs2 & _ & _ & Hdir2).
    apply returns_bind, returns_gets. rewrite Hs2, Hstop.
    eapply returns_weaken.
    { apply IH; rewrite ?Hc2, ?Hh2, ?Hs2; auto. }
    intros [] w3 Hmv3. cbn beta in Hmv3. rewrite Hc2 in Hmv3.
    pose proof (moved_trans _ _ _ _ _ _ _ Hw2 Hmv3) as Hw3.
    by replace (S n * windows A (length (train_loader (config (tr w)))))%nat
      with (0 + windows A (length (train_loader (config (tr w))))
            + n * windows A (length (train_loader (config (tr w)))))%nat
      by lia.
Qed.

Lemma bind_run {X Y} (m : M World X) (k : X → M World Y) w a w' :
  m w = Ok a w' → bind m k w = k a w'.
Proof. intros Hm. unfold bind. by rewrite Hm. Qed.

Lemma returns_try_except {X} (m : M World X) h w Q :
  returns m w Q → returns (try_except m h) w Q.
Proof.
  intros (a & w' & Hm & HQ). exists a, w'. split; [|done].
  unfold try_except. by rewrite Hm.
Qed.

(** When [checkpoint_interval] is zero an epoch runs its batch loop and
    then fails on [self.epoch % self.checkpoint_interval]. *)
Lemma epoch_body_zero_interval (A : nat) w :
  total_learner L →
  Forall quiet (hook_cb <$> hooks (tr w)) →
  n_acc_steps (config (tr w)) = Z.of_nat A → (1 ≤ A)%nat →
  checkpoint_interval (config (tr w)) = 0 →
  _stop (tr w) = false →
  ∃ w',
    epoch_body L w = Raise ZeroDivisionError w' ∧
    moved 0 (windows A (length (train_loader (config (tr w))))) w w' ∧
    disk w' = disk w.
Proof.
  intros Htot Hq HA HA1 Hci Hstop.
  set (w0 := mkWorld (set_grads (zero_grad L (grads (tr w))) (tr w)) (disk w)
               (trace w ++ [EvZeroGrad])).
  destruct (batch_loop_moved A w0) as ([] & w1 & Hrun & Hmv & Hd);
    [done..|].
  change (moved 0 (windows A (length (train_loader (config (tr w))))) w w1)
    in Hmv.
  change (disk w1 = disk w) in Hd.
  exists w1. split; [|done].
  destruct Hmv as (Hc & _). unfold epoch_body.
  rewrite (bind_run _ _ w tt w0) by reflexivity.
  rewrite (bind_run _ _ w0 (train_loader (config (tr w))) w0) by reflexivity.
  rewrite (bind_run _ _ w0 tt w1) by exact Hrun.
  rewrite (bind_run _ _ w1 (epoch (tr w1)) w1) by reflexivity.
  rewrite (bind_run _ _ w1 0 w1) by (unfold gets; by rewrite Hc, Hci).
  reflexivity.
Qed.

End Progress.

(** X15.  With hooks that neither raise nor touch the stop flag, a model
    and a loss that do not raise, an accumulation window of [A ≥ 1]
    batches, non-zero checkpoint and validation intervals, single-best
    selection, a validation loader that yields at least one batch when the
    loss is normalized, and an existing checkpoint directory, [train]
    returns: it has run all [n_epochs] epochs (none when the number is
    negative), with [ceil(B / A)] optimizer steps in each, and leaves the
    stop flag cleared and the configuration as it was. *)
Theorem X15_train_completes
    {Batch Result ModelBlob OptBlob Grad HookBlob : Type}
    (L : Learner Batch Result ModelBlob OptBlob Grad)
    (w : World Batch Result ModelBlob OptBlob Grad HookBlob)
    (A : nat) (n_epochs : Z) :
  total_learner L →
  Forall quiet (hook_cb <$> hooks (tr w)) →
  n_acc_steps (config (tr w)) = Z.of_nat A → (1 ≤ A)%nat →
  checkpoint_interval (config (tr w)) ≠ 0 →
  validation_interval (config (tr w)) ≠ 0 →
  ensembleModel (config (tr w)) = false →
  (loss_is_normalized (config (tr w)) = true →
   validation_loader (config (tr w)) ≠ []) →
  is_Some (checkpoints (disk w)) →
  let B := length (train_loader (config (tr w))) in
  ∃ w',
    train L n_epochs w = Ok tt w' ∧
    epoch (tr w') = (epoch (tr w) + Z.to_nat n_epochs)%nat ∧
    step (tr w') = (step (tr w) + Z.to_nat n_epochs * windows A B)%nat ∧
    _stop (tr w') = false ∧
    config (tr w') = config (tr w).
Proof.
  intros Htot Hq HA HA1 Hci Hvi Hens Hne Hdir B.
  enough (returns (train L n_epochs) w
            (λ _ w', epoch (tr w') = (epoch (tr w) + Z.to_nat n_epochs)%nat ∧
                     step (tr w')
                     = (step (tr w) + Z.to_nat n_epochs * windows A B)%nat ∧
                     _stop (tr w') = false ∧
                     config (tr w') = config (tr w)))
    as ([] & w' & Hrun & HQ) by by exists w'.
  unfold train.
  apply returns_bind, returns_modify.
  apply returns_bind. eapply returns_weaken; [by apply dispatch_moved|].
  intros [] w1 [Hmv1 _].
  destruct Hmv1 as (Hc1 & Hh1 & Hs1 & He1 & Hp1 & Hdir1).
  wsimpl in Hc1. wsimpl in Hh1. wsimpl in Hs1. wsimpl in He1. wsimpl in Hp1.
  cbn [disk] in Hdir1. rewrite Nat.add_0_r in He1, Hp1.
  apply returns_try_except. unfold train_body.
  apply returns_bind. eapply returns_weaken.
  { apply (epoch_loop_moved L A); rewrite ?Hc1, ?Hh1, ?Hs1; auto. }
  intros [] w2 Hmv2. cbn beta in Hmv2. rewrite Hc1 in Hmv2. fold B in Hmv2.
  pose proof Hmv2 as (Hc2 & Hh2 & Hs2 & _ & _ & Hdir2).
  apply returns_bind. eapply returns_weaken.
  { apply dispatch_moved. by rewrite Hh2, Hh1. }
  intros [] w3 [Hmv3 _].
  pose proof (moved_step _ _ _ _ _ Hmv2 Hmv3) as Hw3. clear Hmv3.
  pose proof Hw3 as (_ & _ & _ & _ & _ & Hdir3).
  eapply returns_weaken.
  { apply store_checkpoint_moved. auto. }
  intros [] w4 Hmv4. cbn beta in Hmv4.
  destruct (moved_step _ _ _ _ _ Hw3 Hmv4) as (Hc & _ & Hs & He & Hp & _).
  rewrite He, Hp, Hs, Hc, He1, Hp1, Hs1, Hc1. done.
Qed.

Lemma X15_train_completes_witness :
  let w := Toy.counted_start 2 in
  ∃ w',
    train Toy.learner 4 w = Ok tt w' ∧
    epoch (tr w') = (epoch (tr w) + Z.to_nat 4)%nat ∧
    step (tr w') = (step (tr w) + Z.to_nat 4 * windows 2 3)%nat ∧
    _stop (tr w') = false ∧
    config (tr w') = config (tr w).
Proof.
  apply (X15_train_completes Toy.learner (Toy.counted_start 2) 2 4).
  - split; intros; eexists; reflexivity.
  - repeat constructor; intros c a v s; eexists; reflexivity.
  - reflexivity.
  - lia.
  - done.
  - done.
  - reflexivity.
  - done.
  - by eexists.
Defined.

(** Four epochs of three batches with a window of two: eight optimizer
    steps. *)
Example train_four_epochs :
  let w' := final (train Toy.learner 4 (Toy.counted_start 2)) in
  epoch (tr w') = 4%nat ∧ step (tr w') = 8%nat ∧
  files w' = {[2; 4]}%nat.
Proof.
  split_and!; [vm_compute; reflexivity..|].
  apply (bool_decide_unpack _). vm_compute. exact I.
Qed.

(** X12.  With [checkpoint_interval = 0], hooks that neither raise nor touch
    the stop flag and a model and loss that do not raise, a [train] call
    for at least one epoch runs the batches of its first epoch and then
    raises ZeroDivisionError: the epoch counter has advanced by one, the
    step counter by the optimizer steps of one epoch, and no file has been
    written or removed. *)
Theorem X12_zero_checkpoint_interval
    {Batch Result ModelBlob OptBlob Grad HookBlob : Type}
    (L : Learner Batch Result ModelBlob OptBlob Grad)
    (w : World Batch Result ModelBlob OptBlob Grad HookBlob)
    (A : nat) (n_epochs : Z) :
  total_learner L →
  Forall quiet (hook_cb <$> hooks (tr w)) →
  n_acc_steps (config (tr w)) = Z.of_nat A → (1 ≤ A)%nat →
  checkpoint_interval (config (tr w)) = 0 →
  0 < n_epochs →
  let B := length (train_loader (config (tr w))) in
  ∃ w',
    train L n_epochs w = Raise ZeroDivisionError w' ∧
    epoch (tr w') = S (epoch (tr w)) ∧
    step (tr w') = (step (tr w) + windows A B)%nat ∧
    disk w' = disk w.
Proof.
  intros Htot Hq HA HA1 Hci Hn B.
  destruct (dispatch_moved on_train_begin no_args
              (mkWorld (set_stop false (tr w)) (disk w) (trace w)))
    as ([] & w1 & Hrun1 & Hmv1 & Hd1); [done|].
  destruct Hmv1 as (Hc1 & Hh1 & Hs1 & He1 & Hp1 & _).
  wsimpl in Hc1. wsimpl in Hh1. wsimpl in Hs1. wsimpl in He1. wsimpl in Hp1.
  cbn [disk] in Hd1. rewrite Nat.add_0_r in He1, Hp1.
  destruct (dispatch_moved on_epoch_begin no_args
              (mkWorld (set_epoch (S (epoch (tr w1))) (tr w1)) (disk w1)
                 (trace w1)))
    as ([] & w2 & Hrun2 & Hmv2 & Hd2); [wsimpl; by rewrite Hh1|].
  destruct Hmv2 as (Hc2 & Hh2 & Hs2 & He2 & Hp2 & _).
  wsimpl in Hc2. wsimpl in Hh2. wsimpl in Hs2. wsimpl in He2. wsimpl in Hp2.
  cbn [disk] in Hd2. rewrite Nat.add_0_r in He2, Hp2.
  destruct (epoch_body_zero_interval L A w2)
    as (w3 & Hrun3 & Hmv3 & Hd3);
    [done|by rewrite Hh2, Hh1|by rewrite Hc2, Hc1|done
    |by rewrite Hc2, Hc1|by rewrite Hs2, Hs1|].
  destruct Hmv3 as (Hc3 & Hh3 & Hs3 & He3 & Hp3 & _).
  rewrite Hc2, Hc1 in Hp3. fold B in Hp3. rewrite Nat.add_0_r in He3.
  destruct (dispatch_moved on_train_failed no_args w3)
    as ([] & w4 & Hrun4 & Hmv4 & Hd4); [by rewrite Hh3, Hh2, Hh1|].
  destruct Hmv4 as (Hc4 & Hh4 & Hs4 & He4 & Hp4 & _).
  rewrite Nat.add_0_r in He4, Hp4.
  exists w4. split_and!.
  - unfold train. cbv beta iota delta [bind modify]. rewrite Hrun1.
    cbv beta iota. unfold try_except, train_body.
    destruct (Z.to_nat n_epochs) as [|n] eqn:Hz; [lia|].
    cbn [epoch_loop]. cbv beta iota delta [bind modify gets].
    rewrite Hrun2. cbv beta iota. rewrite Hs2, Hs1, Hrun3.
    cbn [is_Exception]. unfold train_failed. cbv beta iota delta [bind raise].
    by rewrite Hrun4.
  - by rewrite He4, He3, He2, He1.
  - by rewrite Hp4, Hp3, Hp2, Hp1.
  - by rewrite Hd4, Hd3, Hd2, Hd1.
Qed.

Lemma X12_zero_checkpoint_interval_witness :
  let w := Toy.counted_start 0 in
  ∃ w',
    train Toy.learner 4 w = Raise ZeroDivisionError w' ∧
    epoch (tr w') = S (epoch (tr w)) ∧
    step (tr w') = (step (tr w) + windows 2 3)%nat ∧
    disk w' = disk w.
Proof.
  apply (X12_zero_checkpoint_interval Toy.learner (Toy.counted_start 0) 2 4).
  - split; intros; eexists; reflexivity.
  - repeat constructor; intros c a v s; eexists; reflexivity.
  - reflexivity.
  - lia.
  - reflexivity.
  - lia.
Defined.
